(** * sbi.utils.user_input_checks: a shallow embedding and its properties

    The module validates and normalises the prior, the simulator and the
    observation handed to the inference pipeline.  Python objects are
    modelled by what the module observes of them: an exception by its class,
    message and cause; a tensor by its shape, dtype, device and flat data; a
    prior by its [sample] and [log_prob] methods; a call that may raise by a
    [Result]; warnings and the global validation switch by explicit state. *)

From Stdlib Require Import ZArith List Ascii String Bool Lia DecimalString.
Import ListNotations.
Local Open Scope string_scope.
Local Open Scope list_scope.
Local Open Scope Z_scope.
Set Warnings "-register-all".

(* ===================================================================== *)
(** ** Exceptions and results *)
(* ===================================================================== *)

(** The exception classes the module raises or catches.  [KeyboardInterrupt]
    stands for the classes that derive from [BaseException] only, which an
    [except Exception] clause lets through. *)
Inductive ExcClass : Type :=
| AttributeError
| TypeError
| ValueError
| RuntimeError
| IndexError
| NotImplementedError
| AssertionError
| OtherException (name : string)
| KeyboardInterrupt.

Definition ExcClass_eqb (a b : ExcClass) : bool :=
  match a, b with
  | AttributeError, AttributeError
  | TypeError, TypeError
  | ValueError, ValueError
  | RuntimeError, RuntimeError
  | IndexError, IndexError
  | NotImplementedError, NotImplementedError
  | AssertionError, AssertionError
  | KeyboardInterrupt, KeyboardInterrupt => true
  | OtherException n, OtherException m => String.eqb n m
  | _, _ => false
  end.

(** [issubclass(c, Exception)]. *)
Definition is_Exception (c : ExcClass) : bool :=
  match c with
  | KeyboardInterrupt => false
  | _ => true
  end.

(** An exception object: its class, its message and its [__cause__]
    (set by [raise ... from err]). *)
Inductive Exc : Type :=
| mkExc (cls : ExcClass) (msg : string) (cause : option Exc).

Definition exc_class (e : Exc) : ExcClass := let '(mkExc c _ _) := e in c.
Definition exc_msg (e : Exc) : string := let '(mkExc _ m _) := e in m.
Definition exc_cause (e : Exc) : option Exc := let '(mkExc _ _ c) := e in c.

(** [issubclass(c, base)] on the classes modelled: among them
    [NotImplementedError] derives from [RuntimeError]; an [OtherException]
    stands for a class that derives from [Exception] and none of the
    others. *)
Definition issubclass (c base : ExcClass) : bool :=
  match c, base with
  | NotImplementedError, RuntimeError => true
  | _, _ => ExcClass_eqb c base
  end.

(** Does [except cls] catch [e]?  It does when [e] is an instance of
    [cls] or of a subclass of it. *)
Definition caught_by (cls : ExcClass) (e : Exc) : bool :=
  issubclass (exc_class e) cls.

(** Does [except Exception] catch [e]? *)
Definition caught_by_Exception (e : Exc) : bool := is_Exception (exc_class e).

Inductive Result (A : Type) : Type :=
| Ok (a : A)
| Raise (e : Exc).
Arguments Ok {A} a.
Arguments Raise {A} e.

Class Monad (M : Type -> Type) : Type :=
  { ret : forall {A}, A -> M A;
    bind : forall {A B}, M A -> (A -> M B) -> M B }.

Declare Scope py_scope.
Delimit Scope py_scope with py.
Notation "x <- c ;; k" := (bind c (fun x => k))
  (at level 100, c at next level, right associativity) : py_scope.
Notation "' pat <- c ;; k" := (bind c (fun x => match x with pat => k end))
  (at level 100, pat pattern, c at next level, right associativity) : py_scope.
Notation "c ;; k" := (bind c (fun _ => k))
  (at level 100, right associativity) : py_scope.
Local Open Scope py_scope.

#[export] Instance Monad_Result : Monad Result :=
  { ret := fun A a => Ok a;
    bind := fun A B c k => match c with Ok a => k a | Raise e => Raise e end }.

(** [assert cond, msg]. *)
Definition py_assert (cond : bool) (msg : string) : Result unit :=
  if cond then Ok tt else Raise (mkExc AssertionError msg None).

(** [str(n)] for an integer. *)
Definition str_of_Z (n : Z) : string := NilZero.string_of_int (Z.to_int n).

(* ===================================================================== *)
(** ** Shapes *)
(* ===================================================================== *)

(** A shape ([torch.Size] or a tuple of ints). *)
Definition Shape : Type := list Z.

Definition Shape_eqb (a b : Shape) : bool :=
  if list_eq_dec Z.eq_dec a b then true else false.

(** [len(shape)]. *)
Definition rank (s : Shape) : Z := Z.of_nat (List.length s).

(** [shape.numel()]: the product of the dimensions, 1 for the empty shape. *)
Definition numel (s : Shape) : Z := fold_right Z.mul 1 s.

(* ===================================================================== *)
(** ** check_for_possibly_batched_x_shape *)
(* ===================================================================== *)

Definition msg_unpack_empty : string :=
  "not enough values to unpack (expected at least 1, got 0)".

(** The guidance of the batched-x [ValueError]; the examples that follow the
    first paragraph in the source are left out of the text. *)
Definition msg_batched_x : string :=
  "The `x` passed to condition the posterior for evaluation or sampling has an inferred batch shape larger than one. This is not supported in some sbi methods for reasons depending on the scenario: [...]".

(** [inferred_batch_shape, *inferred_data_shape = x_shape]. *)
Definition unpack_leading (s : Shape) : Result (Z * Shape) :=
  match s with
  | [] => Raise (mkExc ValueError msg_unpack_empty None)
  | d :: rest => Ok (d, rest)
  end.

Definition check_for_possibly_batched_x_shape (x_shape : Shape) : Result unit :=
  let x_ndim := rank x_shape in
  '(inferred_batch_shape, inferred_data_shape) <- unpack_leading x_shape ;;
  if (x_ndim >? 1) && (inferred_batch_shape >? 1)
  then Raise (mkExc ValueError msg_batched_x None)
  else Ok tt.

(* ===================================================================== *)
(** ** Tensors *)
(* ===================================================================== *)

Inductive DType : Type := int32 | int64 | float32 | float64.

Definition DType_eqb (a b : DType) : bool :=
  match a, b with
  | int32, int32 | int64, int64 | float32, float32 | float64, float64 => true
  | _, _ => false
  end.

Definition DType_level (d : DType) : Z :=
  match d with int32 => 0 | int64 => 1 | float32 => 2 | float64 => 3 end.

(** [torch.promote_types] on the dtypes modelled. *)
Definition promote_types (a b : DType) : DType :=
  if DType_level a <? DType_level b then b else a.

(** [chunks k n l]: the first [n] consecutive blocks of [k] elements of [l];
    the rows of a tensor whose flat data is [l]. *)
Fixpoint chunks {A : Type} (k n : nat) (l : list A) : list (list A) :=
  match n with
  | O => []
  | S n' => firstn k l :: chunks k n' (skipn k l)
  end.

Section Model.

(** The element type of a tensor. *)
Context {Scalar : Type}.

(** A [torch.Tensor]: shape, dtype, [str(device)] and the elements in
    row-major order. *)
Record Tensor : Type := mkTensor
  { shape : Shape;
    dtype : DType;
    device : string;
    data : list Scalar }.

(** The numerics of the tensor library, which the module does not look
    at: the element conversion between two dtypes (the rounding of a
    [float64] to a [float32], for one), the sum of a list of elements, the
    values a [Uniform(low, high)] draws for a sample shape and the
    log-densities it gives a value, and [t.to(device)], the tensor on the
    device named or the error of a name the library does not know. *)
Class Torch : Type :=
  { cast : DType -> DType -> Scalar -> Scalar;
    scalar_sum : list Scalar -> Scalar;
    uniform_rsample : Tensor -> Tensor -> Shape -> list Scalar;
    uniform_log_prob : Tensor -> Tensor -> Tensor -> list Scalar;
    tensor_to : Tensor -> string -> Result Tensor }.

Context {torch : Torch}.

(** [t.ndim]. *)
Definition ndim (t : Tensor) : Z := rank (shape t).

(** The Python values the module inspects: a tensor, a numpy array (carried
    by the same record, on the cpu) or an object of some other type, named
    by [type(v)]. *)
Inductive PyVal : Type :=
| VTensor (t : Tensor)
| VNdarray (a : Tensor)
| VObject (type_name : string).

(** [t.to(dtype)]: the same tensor when the dtype is already the one asked
    for. *)
Definition to_dtype (t : Tensor) (d : DType) : Tensor :=
  if DType_eqb (dtype t) d then t
  else mkTensor (shape t) d (device t) (map (cast (dtype t) d) (data t)).

Definition from_numpy (a : Tensor) : Tensor :=
  mkTensor (shape a) (dtype a) "cpu" (data a).

(** [torch.as_tensor(v)] and [torch.as_tensor(v, dtype=d)]. *)
Definition as_tensor (v : PyVal) (d : option DType) : Result Tensor :=
  match v with
  | VTensor t => Ok (match d with Some d => to_dtype t d | None => t end)
  | VNdarray a =>
      Ok (match d with
          | Some d => to_dtype (from_numpy a) d
          | None => from_numpy a
          end)
  | VObject n =>
      Raise (mkExc RuntimeError ("Could not infer dtype of " ++ n)%string None)
  end.

(** Modelled from the spec: [sbi.utils.torchutils.atleast_2d] is not among
    the sources; it guarantees at least 2 dimensions by promoting a missing
    batch dimension: a tensor of rank below 2 is reshaped to [(1, -1)]. *)
Definition atleast_2d (t : Tensor) : Tensor :=
  if ndim t <? 2
  then mkTensor [1; numel (shape t)] (dtype t) (device t) (data t)
  else t.

(** [t.unsqueeze(0)]. *)
Definition unsqueeze0 (t : Tensor) : Tensor :=
  mkTensor (1 :: shape t) (dtype t) (device t) (data t).

(** [v.shape] and [v.ndim]. *)
Definition py_shape (v : PyVal) : Result Shape :=
  match v with
  | VTensor t | VNdarray t => Ok (shape t)
  | VObject n =>
      Raise (mkExc AttributeError
               ("'" ++ n ++ "' object has no attribute 'shape'")%string None)
  end.

Definition py_ndim (v : PyVal) : Result Z :=
  match v with
  | VTensor t | VNdarray t => Ok (ndim t)
  | VObject n =>
      Raise (mkExc AttributeError
               ("'" ++ n ++ "' object has no attribute 'ndim'")%string None)
  end.

(** [len(v)]. *)
Definition py_len (v : PyVal) : Result Z :=
  match v with
  | VTensor t | VNdarray t =>
      match shape t with
      | [] => Raise (mkExc TypeError "len() of a 0-d tensor" None)
      | d :: _ => Ok d
      end
  | VObject n =>
      Raise (mkExc TypeError ("object of type '" ++ n ++ "' has no len()")%string None)
  end.

(** The rows [t[0], ..., t[n-1]] of a tensor of rank at least 1. *)
Definition rows (t : Tensor) : list Tensor :=
  match shape t with
  | [] => []
  | n :: rest =>
      map (mkTensor rest (dtype t) (device t))
          (chunks (Z.to_nat (numel rest)) (Z.to_nat n) (data t))
  end.

(** [iter(v)], as [map(simulator, theta)] walks it. *)
Definition py_iter (v : PyVal) : Result (list PyVal) :=
  match v with
  | VTensor t =>
      if ndim t =? 0
      then Raise (mkExc TypeError "iteration over a 0-d tensor" None)
      else Ok (map VTensor (rows t))
  | VNdarray a =>
      if ndim a =? 0
      then Raise (mkExc TypeError "iteration over a 0-d array" None)
      else Ok (map VNdarray (rows a))
  | VObject n =>
      Raise (mkExc TypeError ("'" ++ n ++ "' object is not iterable")%string None)
  end.

(** The elements of the argument of [torch.stack] must all be tensors. *)
Fixpoint expect_tensors (xs : list PyVal) : Result (list Tensor) :=
  match xs with
  | [] => Ok []
  | VTensor t :: r => ts <- expect_tensors r ;; Ok (t :: ts)
  | _ :: _ =>
      Raise (mkExc TypeError
               "expected Tensor as element of argument 'tensors'" None)
  end.

(** [torch.stack(xs)]: a new leading dimension of size [len(xs)] over
    tensors of one shape on one device; the dtypes are promoted. *)
Definition stack (xs : list PyVal) : Result Tensor :=
  ts <- expect_tensors xs ;;
  match ts with
  | [] => Raise (mkExc RuntimeError "stack expects a non-empty TensorList" None)
  | t :: r =>
      if negb (forallb (fun u => Shape_eqb (shape u) (shape t)) r)
      then Raise (mkExc RuntimeError
                    "stack expects each tensor to be equal size" None)
      else if negb (forallb (fun u => String.eqb (device u) (device t)) r)
      then Raise (mkExc RuntimeError
                    "Expected all tensors to be on the same device" None)
      else
        let d := fold_left promote_types (map dtype r) (dtype t) in
        Ok (mkTensor (Z.of_nat (List.length ts) :: shape t) d (device t)
              (List.concat (map (fun u => data (to_dtype u d)) ts)))
  end.

(** [x[:2]]: the first two rows. *)
Definition slice_rows2 (x : Tensor) : Result Tensor :=
  match shape x with
  | [] => Raise (mkExc IndexError
                   "slice() cannot be applied to a 0-dim tensor." None)
  | n :: rest =>
      let k := Z.min n 2 in
      Ok (mkTensor (k :: rest) (dtype x) (device x)
            (firstn (Z.to_nat (k * numel rest)) (data x)))
  end.

(** [theta[:, :2]]: the first two columns of every row. *)
Definition slice_cols2 (theta : Tensor) : Result Tensor :=
  match shape theta with
  | n :: m :: rest =>
      let k := Z.min m 2 in
      Ok (mkTensor (n :: k :: rest) (dtype theta) (device theta)
            (List.concat (map (firstn (Z.to_nat (k * numel rest)))
                       (chunks (Z.to_nat (m * numel rest)) (Z.to_nat n)
                          (data theta)))))
  | _ => Raise (mkExc IndexError "too many indices for tensor" None)
  end.

(* ===================================================================== *)
(** ** process_x *)
(* ===================================================================== *)

(** [str(shape)] of a [torch.Size]. *)
Definition str_of_shape (sh : Shape) : string :=
  ("torch.Size([" ++ String.concat ", " (map str_of_Z sh) ++ "])")%string.

Definition msg_x_event_shape (x_shape es : Shape) : string :=
  ("You passed an `x` of shape " ++ str_of_shape x_shape
   ++ " but the `x_event_shape` (inferred from simulations) is "
   ++ str_of_shape es
   ++ ". We are raising this error because len(x_event_shape) > len(x.shape)")%string.

Definition msg_x_shape_mismatch (trial_shape es : Shape) : string :=
  ("Observed data shape (" ++ str_of_shape trial_shape
   ++ ") must match the shape of simulated data x ("
   ++ str_of_shape es ++ ").")%string.

Definition process_x (x : PyVal) (x_event_shape : option Shape)
  : Result Tensor :=
  x0 <- as_tensor x (Some float32) ;;
  let x1 := atleast_2d x0 in
  match x_event_shape with
  | None => Ok x1
  | Some es =>
      if rank es >? rank (shape x1)
      then Raise (mkExc ValueError (msg_x_event_shape (shape x1) es) None)
      else
        (* If x_shape is provided, we can fix a missing batch dim. *)
        let x2 := if rank es =? rank (shape x1) then unsqueeze0 x1 else x1 in
        let input_x_shape := shape x2 in
        py_assert (Shape_eqb (tl input_x_shape) es)
          (msg_x_shape_mismatch (tl input_x_shape) es) ;;
        Ok x2
  end.

(* ===================================================================== *)
(** ** Priors *)
(* ===================================================================== *)

(** A user object passed as a prior, as the module sees it: its [sample]
    and [log_prob] attributes, [None] when the attribute is missing.  A
    method that rejects its argument returns the [TypeError] it raises. *)
Record PriorLike : Type := mkPriorLike
  { pl_sample : option (Shape -> Result PyVal);
    pl_log_prob : option (PyVal -> Result PyVal) }.

(** [prior.sample(sample_shape)] and [prior.log_prob(value)]. *)
Definition call_sample (p : PriorLike) (sample_shape : Shape) : Result PyVal :=
  match pl_sample p with
  | Some f => f sample_shape
  | None => Raise (mkExc AttributeError "object has no attribute 'sample'" None)
  end.

Definition call_log_prob (p : PriorLike) (value : PyVal) : Result PyVal :=
  match pl_log_prob p with
  | Some f => f value
  | None =>
      Raise (mkExc AttributeError "object has no attribute 'log_prob'" None)
  end.

Definition msg_needs_sample : string :=
  "Prior needs method `.sample()`. Consider using a PyTorch distribution.".

Definition msg_sample_tuple : string :=
  "The `prior.sample()` method must accept Tuple arguments, e.g., prior.sample((2, )) to sample a batch of 2 parameters. Consider using a PyTorch distribution.".

Definition msg_sample_failed : string :=
  "Something went wrong when sampling a batch of parameters from the prior as `prior.sample((2, ))`. Consider using a PyTorch distribution.".

Definition msg_needs_log_prob : string :=
  "Prior needs method `.log_prob()`. Consider using a PyTorch distribution.".

Definition msg_log_prob_failed : string :=
  "Something went wrong when evaluating a batch of parameters theta with `prior.log_prob(theta)`. Consider using a PyTorch distribution.".

(** [raise cls(msg) from err]. *)
Definition raise_from {A : Type} (cls : ExcClass) (msg : string) (err : Exc)
  : Result A :=
  Raise (mkExc cls msg (Some err)).

Definition check_prior_attributes (prior : PriorLike) : Result unit :=
  let num_samples := 2 in
  match call_sample prior [num_samples] with
  | Raise err =>
      if caught_by AttributeError err
      then raise_from AttributeError msg_needs_sample err
      else if caught_by TypeError err
      then raise_from TypeError msg_sample_tuple err
      else if caught_by_Exception err  (* Catch any other error. *)
      then raise_from ValueError msg_sample_failed err
      else Raise err
  | Ok theta =>
      match call_log_prob prior theta with
      | Raise err =>
          if caught_by AttributeError err
          then raise_from AttributeError msg_needs_log_prob err
          else if caught_by_Exception err  (* Catch any other error. *)
          then raise_from ValueError msg_log_prob_failed err
          else Raise err
      | Ok _ => Ok tt
      end
  end.

Definition msg_batch_2d (n : Z) : string :=
  ("A parameter batch sampled from the prior must be at least 2D, (num_samples, parameter_dim), but is "
   ++ str_of_Z n)%string.

Definition msg_batch_size : string :=
  "prior.sample((batch_size, )) must return batch_size parameters.".

Definition msg_num_log_probs : string :=
  "prior.log_prob must return as many log probs as samples.".

Definition check_prior_batch_behavior (prior : PriorLike) : Result unit :=
  let num_samples := 1 in
  theta <- call_sample prior [num_samples] ;;
  log_probs <- call_log_prob prior theta ;;
  theta_shape <- py_shape theta ;;
  py_assert (rank theta_shape >=? 2) (msg_batch_2d (rank theta_shape)) ;;
  '(num_sampled, parameter_dim) <- unpack_leading theta_shape ;;
  (* Using len here because `log_prob` could be `ndarray` or `torch.Tensor`. *)
  num_log_probs <- py_len log_probs ;;
  py_assert (num_sampled =? num_samples) msg_batch_size ;;
  py_assert (num_log_probs =? num_samples) msg_num_log_probs.

(* ===================================================================== *)
(** ** Distributions *)
(* ===================================================================== *)

(** [torch.broadcast_shapes]: the shapes are aligned on the right. *)
Fixpoint broadcast_rev (a b : list Z) : option (list Z) :=
  match a, b with
  | [], _ => Some b
  | _, [] => Some a
  | x :: a', y :: b' =>
      match broadcast_rev a' b' with
      | None => None
      | Some r =>
          if x =? y then Some (x :: r)
          else if x =? 1 then Some (y :: r)
          else if y =? 1 then Some (x :: r)
          else None
      end
  end.

Definition broadcast_shapes (a b : Shape) : option Shape :=
  option_map (@rev Z) (broadcast_rev (rev a) (rev b)).

(** A [torch.distributions.Distribution] of a class the module does not
    single out, by what it answers. *)
Record DistBehaviour : Type := mkDistBehaviour
  { ob_batch_shape : Shape;
    ob_event_shape : Shape;
    ob_sample : Shape -> Result Tensor;
    ob_log_prob : Tensor -> Result Tensor }.

(** The distribution objects.  [Uniform low high] holds the bounds as
    [Uniform.__init__] stores them, broadcast to the batch shape.
    [BoxUniform], [PytorchReturnTypeWrapper] and [OneDimPriorWrapper] are the
    classes of [sbi.utils]. *)
Inductive Dist : Type :=
| Uniform (low high : Tensor)
| BoxUniform (low high : Tensor)
| PytorchReturnTypeWrapper (prior : Dist) (return_type : DType)
| OneDimPriorWrapper (prior : Dist)
| Distribution (b : DistBehaviour).

(** [torch.sum(t, dim=-1)] on a tensor of rank at least 1. *)
Definition sum_last_dim (t : Tensor) : Tensor :=
  mkTensor (removelast (shape t)) (dtype t) (device t)
    (map scalar_sum
       (chunks (Z.to_nat (last (shape t) 1))
          (Z.to_nat (numel (removelast (shape t)))) (data t))).

(** [Uniform(low, high).sample(sample_shape)]: the sample shape followed by
    the batch shape, in the dtype and on the device of the bounds. *)
Definition uniform_sample (low high : Tensor) (sample_shape : Shape) : Tensor :=
  mkTensor (sample_shape ++ shape low)
    (promote_types (dtype low) (dtype high)) (device low)
    (uniform_rsample low high sample_shape).

(** [Uniform(low, high).log_prob(value)]: the value broadcast against the
    bounds. *)
Definition uniform_logp (low high value : Tensor) : Result Tensor :=
  match broadcast_shapes (shape value) (shape low) with
  | Some s =>
      Ok (mkTensor s (promote_types (dtype low) (dtype high)) (device low)
            (uniform_log_prob low high value))
  | None =>
      Raise (mkExc RuntimeError
               "The size of tensor a must match the size of tensor b" None)
  end.

(** Modelled from the spec: [OneDimPriorWrapper] is not among the sources;
    its [log_prob] squeezes the trailing singleton of the wrapped prior's
    log-density, [[10, 1]] becoming [[10]]. *)
Definition squeeze_last (t : Tensor) : Tensor :=
  if last (shape t) 0 =? 1
  then mkTensor (removelast (shape t)) (dtype t) (device t) (data t)
  else t.

(** Modelled from the spec: [BoxUniform] is not among the sources; it is
    the box-uniform form of a uniform with identical bounds: the uniform
    over [low, high] whose last batch dimension is read as the event
    dimension, so that a log-density sums over that dimension. *)
Definition box_uniform_batch_shape (low : Tensor) : Shape :=
  removelast (shape low).

Definition box_uniform_sample (low high : Tensor) (sample_shape : Shape)
  : Result Tensor :=
  Ok (uniform_sample low high sample_shape).

Definition box_uniform_log_prob (low high value : Tensor) : Result Tensor :=
  t <- uniform_logp low high value ;; Ok (sum_last_dim t).

(** Modelled from the spec: [PytorchReturnTypeWrapper] is not among the
    sources; it coerces what the wrapped prior returns to its return
    type. *)
Definition coerce_return (r : Result Tensor) (return_type : DType)
  : Result Tensor :=
  t <- r ;; Ok (to_dtype t return_type).

(** [prior.batch_shape]. *)
Fixpoint batch_shape (d : Dist) : Shape :=
  match d with
  | Uniform low _ => shape low
  | BoxUniform low _ => box_uniform_batch_shape low
  | PytorchReturnTypeWrapper p _ => batch_shape p
  | OneDimPriorWrapper p => batch_shape p
  | Distribution b => ob_batch_shape b
  end.

(** [prior.sample(sample_shape)]. *)
Fixpoint sample (d : Dist) (sample_shape : Shape) : Result Tensor :=
  match d with
  | Uniform low high => Ok (uniform_sample low high sample_shape)
  | BoxUniform low high => box_uniform_sample low high sample_shape
  | PytorchReturnTypeWrapper p rt => coerce_return (sample p sample_shape) rt
  | OneDimPriorWrapper p => sample p sample_shape
  | Distribution b => ob_sample b sample_shape
  end.

(** [prior.log_prob(value)]. *)
Fixpoint log_prob (d : Dist) (value : Tensor) : Result Tensor :=
  match d with
  | Uniform low high => uniform_logp low high value
  | BoxUniform low high => box_uniform_log_prob low high value
  | PytorchReturnTypeWrapper p rt => coerce_return (log_prob p value) rt
  | OneDimPriorWrapper p =>
      t <- log_prob p value ;; Ok (squeeze_last t)
  | Distribution b => ob_log_prob b value
  end.

(** The classes of [sbi.utils] whose code is not among the sources, as far
    as they are taken as given: how the constructor of [BoxUniform] stores a
    bound it is handed (the spec does not say whether the box keeps the
    dtype and device of the bounds or converts them), the keyword arguments
    of the custom-prior wrapper, and the constructors of
    [MultipleIndependent] and [CustomPriorWrapper].  The constructor of
    [CustomPriorWrapper] may warn: it gives the warnings it emits, in the
    order it emits them, beside the wrapper or the error it raises. *)
Class SbiUtils : Type :=
  { box_bound : Tensor -> Tensor;
    Kwargs : Type;
    MultipleIndependent : list Dist -> Result DistBehaviour;
    CustomPriorWrapper :
      PriorLike -> Shape -> option Kwargs
      -> list string * Result DistBehaviour }.

Context {sbi_utils : SbiUtils}.

(** [BoxUniform(low=low, high=high)]: an [Independent] over the last batch
    dimension, which the bounds must have. *)
Definition BoxUniform_init (low high : Tensor) : Result Dist :=
  let low := box_bound low in
  let high := box_bound high in
  if ndim low <? 1
  then Raise (mkExc ValueError
                "Expected reinterpreted_batch_ndims <= len(base_distribution.batch_shape)"
                None)
  else Ok (BoxUniform low high).

(** A distribution seen through its two methods. *)
Definition dist_as_prior (d : Dist) : PriorLike :=
  {| pl_sample := Some (fun s => t <- sample d s ;; Ok (VTensor t));
     pl_log_prob :=
       Some (fun v =>
               match v with
               | VTensor t => r <- log_prob d t ;; Ok (VTensor r)
               | VNdarray _ =>
                   Raise (mkExc TypeError
                            "log_prob(): argument 'value' must be Tensor, not numpy.ndarray"
                            None)
               | VObject n =>
                   Raise (mkExc TypeError
                            ("log_prob(): argument 'value' must be Tensor, not "
                             ++ n)%string None)
               end) |}.

Definition msg_prior_batch_dims : string :=
  "The specified prior has `batch_shape` larger than 1. Please specify a prior with batch_shape smaller equal to 1 and `event_shape` equal to number of parameters of your model. [...]".

Definition check_prior_batch_dims (prior : Dist) : Result unit :=
  if numel (batch_shape prior) >? 1
  then Raise (mkExc ValueError msg_prior_batch_dims None)
  else Ok tt.

Definition str_of_dtype (d : DType) : string :=
  match d with
  | int32 => "torch.int32"
  | int64 => "torch.int64"
  | float32 => "torch.float32"
  | float64 => "torch.float64"
  end.

Definition msg_prior_return_type (return_type prior_dtype : DType) : string :=
  ("Prior return type must be " ++ str_of_dtype return_type ++ ", but is "
   ++ str_of_dtype prior_dtype ++ ".")%string.

Definition check_prior_return_type (prior : Dist) (return_type : DType)
  : Result unit :=
  s <- sample prior [] ;;
  let prior_dtype := dtype s in
  py_assert (DType_eqb prior_dtype return_type)
    (msg_prior_return_type return_type prior_dtype).

(* ===================================================================== *)
(** ** Warnings and the validation switch *)
(* ===================================================================== *)

(** What a call leaves behind: the class-wide [Distribution._validate_args]
    and the warnings emitted so far, the latest first. *)
Record State : Type := mkState
  { validate_args : bool;
    warnings : list string }.

Definition M (A : Type) : Type := State -> Result A * State.

#[export] Instance Monad_M : Monad M :=
  { ret := fun A a st => (Ok a, st);
    bind := fun A B c k st =>
      match c st with
      | (Ok a, st') => k a st'
      | (Raise e, st') => (Raise e, st')
      end }.

Definition lift {A : Type} (r : Result A) : M A := fun st => (r, st).

(** [warnings.warn(msg, stacklevel=2)]. *)
Definition warn (msg : string) : M unit :=
  fun st => (Ok tt, mkState (validate_args st) (msg :: warnings st)).

(** [prior.set_default_validate_args(value)]. *)
Definition set_default_validate_args (value : bool) : M unit :=
  fun st => (Ok tt, mkState value (warnings st)).

(** A call that warns and then returns or raises: the warnings, given in
    the order they are emitted, are added to the state. *)
Definition warning_call {A : Type} (c : list string * Result A) : M A :=
  fun st => (snd c, mkState (validate_args st) (rev (fst c) ++ warnings st)).

(* ===================================================================== *)
(** ** process_prior *)
(* ===================================================================== *)

Definition msg_scalar_prior : string :=
  "Detected scalar prior. Please make sure to pass a PyTorch prior with `batch_shape=torch.Size([1])` or `event_shape=torch.Size([1])`.".

Definition msg_cast_box_uniform : string :=
  "Casting 1D Uniform prior to BoxUniform to match sbi batch requirements.".

Definition process_pytorch_prior (prior : Dist) : M (Dist * Z * bool) :=
  (* Turn off validation of input arguments. *)
  set_default_validate_args false ;;
  s <- lift (sample prior []) ;;
  prior <-
    (* Reject unwrapped scalar priors. *)
    (if ndim s =? 0
     then lift (Raise (mkExc ValueError msg_scalar_prior None))
     else
       match prior with
       | Uniform low high =>
           (* Cast 1D Uniform to BoxUniform. *)
           if numel (batch_shape prior) =? 1
           then
             box <- lift (BoxUniform_init low high) ;;
             warn msg_cast_box_uniform ;;
             ret box
           else ret prior
       | _ => ret prior
       end) ;;
  lift (check_prior_batch_behavior (dist_as_prior prior)) ;;
  lift (check_prior_batch_dims prior) ;;
  s <- lift (sample prior []) ;;
  let prior :=
    if negb (DType_eqb (dtype s) float32)
    then PytorchReturnTypeWrapper prior float32
    else prior in
  (* This will fail for float64 priors. *)
  lift (check_prior_return_type prior float32) ;;
  (* Potentially required wrapper if the prior returns an additional sample
     dimension for `.log_prob()`. *)
  s10 <- lift (sample prior [10]) ;;
  lp <- lift (log_prob prior s10) ;;
  let prior :=
    if Shape_eqb (shape lp) [10; 1] then OneDimPriorWrapper prior else prior in
  s <- lift (sample prior []) ;;
  let theta_numel := numel (shape s) in
  ret (prior, theta_numel, false).

Definition msg_prior_return (type_name : string) : string :=
  ("Prior must return torch.Tensor or ndarray, but returns " ++ type_name)%string.

(** [type(v)], as an f-string prints it. *)
Definition py_type_name (v : PyVal) : string :=
  match v with
  | VTensor _ => "<class 'torch.Tensor'>"
  | VNdarray _ => "<class 'numpy.ndarray'>"
  | VObject n => n
  end.

Definition maybe_wrap_prior_as_pytorch
  (prior : PriorLike) (custom_prior_wrapper_kwargs : option Kwargs)
  : M (Dist * bool) :=
  theta <- lift (call_sample prior [1]) ;;
  log_probs <- lift (call_log_prob prior theta) ;;
  (* Check return types *)
  match theta, log_probs with
  | VTensor t, VTensor _ =>
      w <- warning_call (CustomPriorWrapper prior [numel (shape t)]
                           custom_prior_wrapper_kwargs) ;;
      ret (Distribution w, false)
  | VNdarray a, VNdarray _ =>
      (* infer event shape from single numpy sample. *)
      let event_shape := [numel (shape a)] in
      w <- warning_call (CustomPriorWrapper prior event_shape
                           custom_prior_wrapper_kwargs) ;;
      ret (Distribution w, true)
  | _, _ =>
      lift (Raise (mkExc TypeError (msg_prior_return (py_type_name theta))
                     None))
  end.

Definition process_custom_prior
  (prior : PriorLike) (custom_prior_wrapper_kwargs : option Kwargs)
  : M (Dist * Z * bool) :=
  lift (check_prior_attributes prior) ;;
  lift (check_prior_batch_behavior prior) ;;
  '(prior, is_prior_numpy) <-
    maybe_wrap_prior_as_pytorch prior custom_prior_wrapper_kwargs ;;
  lift (check_prior_return_type prior float32) ;;
  s <- lift (sample prior []) ;;
  let theta_numel := numel (shape s) in
  ret (prior, theta_numel, is_prior_numpy).

(** What [process_prior] may be handed: a sequence of priors, a PyTorch
    distribution, a frozen [scipy.stats] object or any other object. *)
Inductive PriorObj : Type :=
| PSequence (priors : list PriorObj)
| PDistribution (d : Dist)
| PScipyFrozen
| PCustom (p : PriorLike).

Definition msg_sequence_prior (n : Z) : string :=
  ("Prior was provided as a sequence of " ++ str_of_Z n
   ++ " priors. They will be interpreted as independent of each other and matched in order to the components of the parameter.")%string.

Definition msg_scipy_deprecated : string :=
  "Passing a prior as scipy.stats object is deprecated. Please pass it as a PyTorch Distribution.".

Fixpoint process_prior
  (prior : PriorObj) (custom_prior_wrapper_kwargs : option Kwargs)
  : M (Dist * Z * bool) :=
  match prior with
  | PSequence priors =>
      warn (msg_sequence_prior (Z.of_nat (List.length priors))) ;;
      (* process individual priors *)
      processed <-
        (fix each (ps : list PriorObj) : M (list Dist) :=
           match ps with
           | [] => ret []
           | p :: rest =>
               '(d, _, _) <- process_prior p custom_prior_wrapper_kwargs ;;
               ds <- each rest ;;
               ret (d :: ds)
           end) priors ;;
      joint <- lift (MultipleIndependent processed) ;;
      process_pytorch_prior (Distribution joint)
  | PDistribution d => process_pytorch_prior d
  | PScipyFrozen =>
      lift (Raise (mkExc NotImplementedError msg_scipy_deprecated None))
  | PCustom p => process_custom_prior p custom_prior_wrapper_kwargs
  end.

(* ===================================================================== *)
(** ** process_simulator *)
(* ===================================================================== *)

(** A simulator is a callable from a value to a value that may raise. *)
Definition Simulator : Type := PyVal -> Result PyVal.

(** What the user passes as a simulator: a callable, or an object of some
    other type. *)
Inductive UserSimulator : Type :=
| Callable (f : Simulator)
| NotCallable (type_name : string).

(** [list(map(f, xs))]: the calls are made in order and the first one that
    raises ends the loop. *)
Fixpoint map_result {A B : Type} (f : A -> Result B) (xs : list A)
  : Result (list B) :=
  match xs with
  | [] => Ok []
  | x :: r => y <- f x ;; ys <- map_result f r ;; Ok (y :: ys)
  end.

Definition wrap_as_joblib_efficient_simulator
  (simulator : Simulator) (prior : Dist) (is_numpy_simulator : bool)
  : Simulator :=
  fun theta =>
    t <- as_tensor theta None ;;
    out <- simulator (VTensor t) ;;
    r <- as_tensor out (Some float32) ;;
    Ok (VTensor r).

Definition msg_theta_batch_dim : string := "Theta must have a batch dimension.".

Definition get_batch_loop_simulator (simulator : Simulator) : Simulator :=
  fun theta =>
    nd <- py_ndim theta ;;
    py_assert (nd >? 1) msg_theta_batch_dim ;;
    (* Simulate in loop *)
    thetas <- py_iter theta ;;
    xs <- map_result simulator thetas ;;
    (* Stack over batch to keep x_shape *)
    t <- stack xs ;;
    Ok (VTensor t).

(** The body of the [try] of [ensure_batched_simulator]. *)
Definition batch_probe (simulator : Simulator) (prior : Dist) : Result unit :=
  let batch_size := 2 in
  theta <- sample prior [batch_size] ;;
  out <- simulator (VTensor theta) ;;
  output_shape <- py_shape out ;;
  py_assert (rank output_shape >? 1) "" ;;
  py_assert (hd 0 output_shape =? batch_size) "".

Definition ensure_batched_simulator (simulator : Simulator) (prior : Dist)
  : Result Simulator :=
  match batch_probe simulator prior with
  | Ok _ => Ok simulator
  | Raise e =>
      if caught_by_Exception e
      then Ok (get_batch_loop_simulator simulator)
      else Raise e
  end.

Definition msg_simulator_callable : string := "Simulator must be a function.".

Definition process_simulator
  (user_simulator : UserSimulator) (prior : Dist) (is_numpy_simulator : bool)
  : Result Simulator :=
  match user_simulator with
  | NotCallable _ => Raise (mkExc AssertionError msg_simulator_callable None)
  | Callable f =>
      let joblib_simulator :=
        wrap_as_joblib_efficient_simulator f prior is_numpy_simulator in
      ensure_batched_simulator joblib_simulator prior
  end.

(** Calling what [process_simulator] returned. *)
Definition call_processed (r : Result Simulator) (theta : PyVal)
  : Result PyVal :=
  simulator <- r ;; simulator theta.

(* ===================================================================== *)
(** ** validate_theta_and_x *)
(* ===================================================================== *)

Definition msg_theta_tensor : string :=
  "Parameters theta must be a `torch.Tensor`.".
Definition msg_x_tensor : string :=
  "Simulator output must be a `torch.Tensor`.".
Definition msg_batch_mismatch (n m : Z) : string :=
  ("Number of parameter sets (=" ++ str_of_Z n
   ++ " must match the number of simulation outputs (=" ++ str_of_Z m ++ ")")%string.
Definition msg_theta_float32 : string := "Type of parameters must be float32.".
Definition msg_x_float32 : string :=
  "Type of simulator outputs must be float32.".

Definition msg_move_x (dev data_device training_device : string) : string :=
  ("Data x has device '" ++ dev ++ "'. Moving x to the data_device '"
   ++ data_device ++ "'. Training will proceed on device '"
   ++ training_device ++ "'.")%string.
Definition msg_move_theta (dev data_device training_device : string) : string :=
  ("Parameters theta has device '" ++ dev
   ++ "'. Moving theta to the data_device '" ++ data_device
   ++ "'. Training will proceed on device '" ++ training_device ++ "'.")%string.

(** [isinstance(v, Tensor)], with the tensor when it is one. *)
Definition as_Tensor (v : PyVal) : option Tensor :=
  match v with VTensor t => Some t | _ => None end.

(** [t.shape[0]]. *)
Definition shape0 (t : Tensor) : Result Z :=
  match shape t with
  | d :: _ => Ok d
  | [] => Raise (mkExc IndexError "tuple index out of range" None)
  end.

Definition validate_theta_and_x
  (theta x : PyVal) (data_device training_device : string)
  : M (Tensor * Tensor) :=
  match as_Tensor theta with
  | None => lift (Raise (mkExc AssertionError msg_theta_tensor None))
  | Some theta =>
  match as_Tensor x with
  | None => lift (Raise (mkExc AssertionError msg_x_tensor None))
  | Some x =>
      n <- lift (shape0 theta) ;;
      m <- lift (shape0 x) ;;
      lift (py_assert (n =? m) (msg_batch_mismatch n m)) ;;
      lift (py_assert (DType_eqb (dtype theta) float32) msg_theta_float32) ;;
      lift (py_assert (DType_eqb (dtype x) float32) msg_x_float32) ;;
      x <- (if negb (String.eqb (device x) data_device)
            then
              warn (msg_move_x (device x) data_device training_device) ;;
              lift (tensor_to x data_device)
            else ret x) ;;
      theta <- (if negb (String.eqb (device theta) data_device)
                then
                  warn (msg_move_theta (device theta) data_device
                          training_device) ;;
                  lift (tensor_to theta data_device)
                else ret theta) ;;
      ret (theta, x)
  end
  end.

(* ===================================================================== *)
(** ** test_posterior_net_for_multi_d_x *)
(* ===================================================================== *)

(** A density estimator or classifier: its [log_prob(inputs, condition)]
    method when it has one. *)
Record Net : Type := mkNet
  { net_log_prob : option (Tensor -> Tensor -> Result PyVal) }.

Definition msg_debug_hint (dims : Z) : string :=
  ("Debug hint: The simulated data x has " ++ str_of_Z dims
   ++ " dimensions. With default settings, sbi cannot deal with multidimensional simulations. Make sure to use an embedding net that reduces the dimensionality, e.g., a CNN in case of images, or change the simulator to return one-dimensional x.")%string.

(** The body of the [try] of [test_posterior_net_for_multi_d_x]. *)
Definition log_prob_probe (net : Net) (theta x : Tensor) : Result unit :=
  match net_log_prob net with
  | Some net_log_prob =>
      (* torch.nn.functional needs at least two inputs here. *)
      inputs <- slice_cols2 theta ;;
      condition <- slice_rows2 x ;;
      net_log_prob inputs condition ;;
      Ok tt
  | None => Ok tt
  end.

Definition test_posterior_net_for_multi_d_x (net : Net) (theta x : Tensor)
  : Result unit :=
  match log_prob_probe net theta x with
  | Ok _ => Ok tt
  | Raise rte =>
      if caught_by RuntimeError rte
      then
        let ndims := ndim x in
        let message := if ndims >? 2 then msg_debug_hint (ndims - 1) else "" in
        raise_from RuntimeError message rte
      else Raise rte
  end.

(* ===================================================================== *)
(** ** The claims in the words of the specification *)
(* ===================================================================== *)

(** A multi-dimensional shape whose leading dimension exceeds 1. *)
Definition batched_shape (s : Shape) : Prop := 1 < rank s /\ 1 < hd 0 s.

Definition raises_ValueError {A : Type} (r : Result A) : Prop :=
  exists msg cause, r = Raise (mkExc ValueError msg cause).





(** The batch probe of [ensure_batched_simulator] fails: the probe call
    raises, or the output has rank at most 1 or a leading dimension other
    than 2. *)
Definition probe_fails (simulator : Simulator) (prior : Dist) : Prop :=
  match (theta <- sample prior [2] ;; simulator (VTensor theta)) with
  | Raise e => caught_by_Exception e = true
  | Ok (VTensor out) | Ok (VNdarray out) =>
      rank (shape out) <= 1 \/ hd 0 (shape out) <> 2
  | Ok (VObject _) => True
  end.

Definition initial_state : State := mkState true [].

(* ===================================================================== *)
(** ** check_prior_support, check_data_device *)
(* ===================================================================== *)

(** [sbi.utils.sbiutils.within_support] is not among the sources: the check
    of samples against the support of a prior, or the error it raises, is
    taken as given. *)
Class SbiSupport : Type :=
  { within_support : Dist -> Tensor -> Result Tensor }.

Context {sbi_support : SbiSupport}.

Definition msg_prior_support : string :=
  "The prior must implement the support property or allow to call .log_prob() outside of support.".

Definition check_prior_support (prior : Dist) : Result unit :=
  match (theta <- sample prior [1] ;; within_support prior theta) with
  | Ok _ => Ok tt
  | Raise err =>
      if caught_by NotImplementedError err
      then raise_from NotImplementedError msg_prior_support err
      else Raise err
  end.

Definition msg_device_mismatch (dev_1 dev_2 : string) : string :=
  ("Mismatch in fed data's device: datum_1 has device '" ++ dev_1
   ++ "' whereas datum_2 has device '" ++ dev_2
   ++ "'. Please use data from a common device.")%string.

Definition check_data_device (datum_1 datum_2 : Tensor) : Result unit :=
  py_assert (String.eqb (device datum_1) (device datum_2))
    (msg_device_mismatch (device datum_1) (device datum_2)).

(* ===================================================================== *)
(** ** wrap_as_pytorch_simulator *)
(* ===================================================================== *)

(** [v.numpy()]: the array of a tensor that lives on the cpu. *)
Definition py_numpy (v : PyVal) : Result PyVal :=
  match v with
  | VTensor t =>
      if String.eqb (device t) "cpu"
      then Ok (VNdarray t)
      else Raise (mkExc TypeError
                    "can't convert device type tensor to numpy. Use Tensor.cpu() to copy the tensor to host memory first."
                    None)
  | VNdarray _ =>
      Raise (mkExc AttributeError
               "'numpy.ndarray' object has no attribute 'numpy'" None)
  | VObject n =>
      Raise (mkExc AttributeError
               ("'" ++ n ++ "' object has no attribute 'numpy'")%string None)
  end.

Definition msg_simulator_output_type (x theta : PyVal) : string :=
  ("Simulator output type " ++ py_type_name x
   ++ " must match its input type " ++ py_type_name theta)%string.

(** [isinstance(v, ndarray)]. *)
Definition is_ndarray (v : PyVal) : bool :=
  match v with VNdarray _ => true | _ => false end.

Definition wrap_as_pytorch_simulator
  (simulator : Simulator) (prior : Dist) (is_numpy_simulator : bool)
  : Result Simulator :=
  if is_numpy_simulator
  then
    (* Get data to check input type is consistent with data. *)
    s <- sample prior [] ;;
    theta <- py_numpy (VTensor s) ;;
    x <- simulator theta ;;
    py_assert (is_ndarray x) (msg_simulator_output_type x theta) ;;
    (* Define a wrapper function to PyTorch *)
    Ok (fun theta : PyVal =>
          a <- py_numpy theta ;;
          out <- simulator a ;;
          r <- as_tensor out (Some float32) ;;
          Ok (VTensor r))
  else
    (* Define a wrapper to make sure that the output of the simulator is
       `float32`. *)
    Ok (fun theta : PyVal =>
          out <- simulator theta ;;
          r <- as_tensor out (Some float32) ;;
          Ok (VTensor r)).

(* ===================================================================== *)
(** ** check_sbi_inputs, prepare_for_sbi *)
(* ===================================================================== *)

Definition msg_sbi_theta_tensor : string :=
  "Parameters theta must be a `Tensor`.".
Definition msg_sbi_simulation_tensor : string :=
  "Simulator output must be a `Tensor`.".
Definition msg_theta_batch_shape (n num_samples : Z) : string :=
  ("Theta batch shape " ++ str_of_Z n ++ " must match num_samples="
   ++ str_of_Z num_samples ++ ".")%string.
Definition msg_simulation_batch_shape (n num_samples : Z) : string :=
  ("Simulation batch shape " ++ str_of_Z n ++ " must match num_samples="
   ++ str_of_Z num_samples ++ ".")%string.

(** [isinstance(v, Tensor)]. *)
Definition is_Tensor (v : PyVal) : bool :=
  match v with VTensor _ => true | _ => false end.

Definition check_sbi_inputs (simulator : Simulator) (prior : Dist)
  : Result unit :=
  check_prior_support prior ;;
  let num_prior_samples := 1 in
  theta <- sample prior [num_prior_samples] ;;
  '(theta_batch_shape, _) <- unpack_leading (shape theta) ;;
  simulation <- simulator (VTensor theta) ;;
  simulation_shape <- py_shape simulation ;;
  '(sim_batch_shape, sim_event_shape) <- unpack_leading simulation_shape ;;
  py_assert (is_Tensor (VTensor theta)) msg_sbi_theta_tensor ;;
  py_assert (is_Tensor simulation) msg_sbi_simulation_tensor ;;
  py_assert (theta_batch_shape =? num_prior_samples)
    (msg_theta_batch_shape theta_batch_shape num_prior_samples) ;;
  py_assert (sim_batch_shape =? num_prior_samples)
    (msg_simulation_batch_shape sim_batch_shape num_prior_samples).

(** The text of the [DeprecationWarning]; the category of a warning is not
    recorded in the state. *)
Definition msg_prepare_deprecated : string :=
  "This method is deprecated as of sbi version v0.23.0. and will be removed in a         future release.Please use `process_prior` and `process_simulator` in the future.".

Definition prepare_for_sbi (simulator : UserSimulator) (prior : PriorObj)
  : M (Simulator * Dist) :=
  warn msg_prepare_deprecated ;;
  (* Check prior, return PyTorch prior. *)
  '(prior, _, prior_returns_numpy) <- process_prior prior None ;;
  (* Check simulator, returns PyTorch simulator able to simulate batches. *)
  simulator <- lift (process_simulator simulator prior prior_returns_numpy) ;;
  (* Consistency check after making ready for sbi. *)
  lift (check_sbi_inputs simulator prior) ;;
  ret (simulator, prior).

End Model.

(* ===================================================================== *)
(** ** Worked instances *)
(* ===================================================================== *)

(** [round_to_bits bits z]: the integer [z] rounded to a significand of
    [bits] bits, to the nearest and on a tie to the even significand: the
    value a binary floating-point format with that significand holds for
    [z], overflow aside. *)
Definition round_to_bits (bits z : Z) : Z :=
  let a := Z.abs z in
  let k := Z.log2 a + 1 - bits in
  if k <=? 0 then z
  else
    let q := Z.shiftr a k in
    let r := a - Z.shiftl q k in
    let half := Z.shiftl 1 (k - 1) in
    let q' :=
      if r <? half then q
      else if half <? r then q + 1
      else if Z.even q then q else q + 1 in
    Z.sgn z * Z.shiftl q' k.

(** A small tensor library whose elements are the integer-valued numbers.
    A conversion to [float32] rounds to 24 significant bits and one to
    [float64] to 53, so that every integer up to [2^24] is kept by
    [float32] and [2^24 + 1] is not; draws and log-densities are zeros of
    the right number. *)
Definition Zcast (from to : DType) (z : Z) : Z :=
  match to with
  | float32 => round_to_bits 24 z
  | float64 => round_to_bits 53 z
  | int32 | int64 => z
  end.

Definition zeros (s : Shape) : list Z := repeat 0 (Z.to_nat (numel s)).

#[export] Instance Ztorch : @Torch Z :=
  { cast := Zcast;
    scalar_sum := fun l => fold_right Z.add 0 l;
    uniform_rsample := fun low _ sample_shape =>
      zeros (sample_shape ++ shape low);
    uniform_log_prob := fun low _ value =>
      match broadcast_shapes (shape value) (shape low) with
      | Some s => zeros s
      | None => []
      end;
    tensor_to := fun t dev => Ok (mkTensor (shape t) (dtype t) dev (data t)) }.

(** Modelled from the spec: [MultipleIndependent] is not among the sources;
    the joint of independent priors has one event dimension that holds the
    parameters of all components. *)
Definition joint_behaviour (ds : list (@Dist Z)) : Result (@DistBehaviour Z) :=
  ss <- map_result (fun d => sample d []) ds ;;
  let n := fold_right Z.add 0 (map (fun s => numel (shape s)) ss) in
  Ok {| ob_batch_shape := [];
        ob_event_shape := [n];
        ob_sample := fun sample_shape =>
          Ok (mkTensor (sample_shape ++ [n]) float32 "cpu"
                (zeros (sample_shape ++ [n])));
        ob_log_prob := fun value =>
          Ok (mkTensor (removelast (shape value)) float32 "cpu"
                (zeros (removelast (shape value)))) |}.

(** Modelled from the spec: [CustomPriorWrapper] is not among the sources;
    it makes a distribution of a custom prior, with the event shape inferred
    from one sample, and returns [float32] tensors.  Its constructor warns
    of what a bare custom prior lacks: bounds, when no keyword arguments are
    passed, a mean and a variance. *)
Definition custom_behaviour
  (p : @PriorLike Z) (event_shape : Shape) (kwargs : option unit)
  : list string * Result (@DistBehaviour Z) :=
  ((match kwargs with
    | None =>
        ["No prior bounds were passed, consider passing lower_bound and / or upper_bound if your prior has bounded support."]
    | Some _ => []
    end)
   ++ ["Prior is lacking mean attribute, estimating prior mean from samples.";
       "Prior is lacking variance attribute, estimating prior variance from samples."],
   Ok {| ob_batch_shape := [];
         ob_event_shape := event_shape;
         ob_sample := fun sample_shape =>
           v <- call_sample p sample_shape ;; as_tensor v (Some float32);
         ob_log_prob := fun value =>
           v <- call_log_prob p (VTensor value) ;;
           as_tensor v (Some float32) |}).

(** Modelled from the spec: [BoxUniform] is not among the sources; its
    constructor converts the bounds it is handed to [float32]. *)
Definition sbi_float32_bounds : @SbiUtils Z :=
  {| box_bound := fun t => to_dtype t float32;
     Kwargs := unit;
     MultipleIndependent := joint_behaviour;
     CustomPriorWrapper := custom_behaviour |}.

Definition tensor1 (d : DType) (z : Z) : @Tensor Z := mkTensor [1] d "cpu" [z].

(** [lambda theta: theta.sum()]. *)
Definition sum_simulator : @Simulator Z :=
  fun theta =>
    match theta with
    | VTensor t => Ok (VTensor (mkTensor [] (dtype t) (device t)
                                  [fold_right Z.add 0 (data t)]))
    | VNdarray a => Ok (VNdarray (mkTensor [] (dtype a) (device a)
                                    [fold_right Z.add 0 (data a)]))
    | VObject n =>
        Raise (mkExc AttributeError
                 ("'" ++ n ++ "' object has no attribute 'sum'")%string None)
    end.

(** A batch of 4 parameter vectors of 2 parameters. *)
Definition theta_4x2 : @Tensor Z :=
  mkTensor [4; 2] float32 "cpu" [1; 2; 3; 4; 5; 6; 7; 8].

Definition prior_2d : @Dist Z :=
  BoxUniform (mkTensor [2] float32 "cpu" [0; 0])
             (mkTensor [2] float32 "cpu" [1; 1]).

(** A net whose [log_prob] fails on the shapes it is given. *)
Definition failing_net : @Net Z :=
  mkNet (Some (fun _ _ =>
                 Raise (mkExc RuntimeError
                          "mat1 and mat2 shapes cannot be multiplied" None))).

(** A net whose [log_prob] is declared and not implemented. *)
Definition unimplemented_net : @Net Z :=
  mkNet (Some (fun _ _ => Raise (mkExc NotImplementedError "" None))).

Definition shape_error : Exc :=
  mkExc RuntimeError "mat1 and mat2 shapes cannot be multiplied" None.


(** Modelled from the spec: [within_support] is not among the sources; the
    support is checked through the log-density of the samples, which gives
    one flag for each. *)
Definition Zsupport : @SbiSupport Z :=
  {| within_support := fun d samples =>
       lp <- log_prob d samples ;;
       Ok (mkTensor (shape lp) int32 (device lp) (map (fun _ => 1) (data lp))) |}.

(** A prior whose support cannot be checked. *)
Definition no_support : @SbiSupport Z :=
  {| within_support := fun _ _ =>
       Raise (mkExc NotImplementedError "support is not implemented" None) |}.

(** [lambda theta: theta], a simulator that handles batches. *)
Definition identity_simulator : @Simulator Z := fun theta => Ok theta.

(** [Uniform(zeros(1), ones(1))] and its box-uniform form. *)
Definition uniform_1d : @Dist Z :=
  Uniform (tensor1 float32 0) (tensor1 float32 1).

Definition box_uniform_1d : @Dist Z :=
  BoxUniform (tensor1 float32 0) (tensor1 float32 1).

(** A custom prior that returns tensor samples and array log-densities. *)
Definition mixed_prior : @PriorLike Z :=
  mkPriorLike
    (Some (fun s => Ok (VTensor (mkTensor (s ++ [2]) float32 "cpu"
                                   (zeros (s ++ [2]))))))
    (Some (fun _ => Ok (VNdarray (mkTensor [1] float32 "cpu" [0])))).

(** A custom prior that answers in numpy arrays: [np.zeros(s + (2,))] for a
    sample of shape [s], and one log-density for each parameter vector. *)
Definition numpy_prior : @PriorLike Z :=
  mkPriorLike
    (Some (fun s => Ok (VNdarray (mkTensor (s ++ [2]) float64 "cpu"
                                    (zeros (s ++ [2]))))))
    (Some (fun v =>
             match v with
             | VTensor t | VNdarray t =>
                 Ok (VNdarray (mkTensor (removelast (shape t)) float64 "cpu"
                                 (zeros (removelast (shape t)))))
             | VObject n =>
                 Raise (mkExc AttributeError
                          ("'" ++ n ++ "' object has no attribute 'shape'")%string
                          None)
             end)).

(** What the constructor of the wrapper warns for a bare custom prior, and
    the wrapper it builds around [numpy_prior]. *)
Definition wrapper_warnings : list string :=
  fst (custom_behaviour numpy_prior [2] None).

Definition numpy_wrapper : @DistBehaviour Z :=
  {| ob_batch_shape := [];
     ob_event_shape := [2];
     ob_sample := fun sample_shape =>
       v <- call_sample numpy_prior sample_shape ;; as_tensor v (Some float32);
     ob_log_prob := fun value =>
       v <- call_log_prob numpy_prior (VTensor value) ;;
       as_tensor v (Some float32) |}.

(** A custom prior without [sample]. *)
Definition no_sample_prior : @PriorLike Z :=
  mkPriorLike None (Some (fun v => Ok v)).

(** The same library where only the devices [cpu] and [cuda:0] can be moved
    to; any other name is refused as [torch.device] refuses it. *)
Definition Ztorch_two_devices : @Torch Z :=
  {| cast := Zcast;
     scalar_sum := scalar_sum (Torch := Ztorch);
     uniform_rsample := uniform_rsample (Torch := Ztorch);
     uniform_log_prob := uniform_log_prob (Torch := Ztorch);
     tensor_to := fun t dev =>
       if (String.eqb dev "cpu" || String.eqb dev "cuda:0")%bool
       then Ok (mkTensor (shape t) (dtype t) dev (data t))
       else Raise (mkExc RuntimeError
                     ("Expected one of cpu, cuda device type at start of device string: "
                      ++ dev)%string None) |}.

(** Training data on an accelerator. *)
Definition theta_cuda : @Tensor Z :=
  mkTensor [5; 2] float32 "cuda:0" (zeros [5; 2]).

Definition x_cuda : @Tensor Z :=
  mkTensor [5; 3] float32 "cuda:0" (zeros [5; 3]).

(* ===================================================================== *)
(** * Properties *)
(* ===================================================================== *)

Section Properties.

Context {Scalar : Type} {torch : @Torch Scalar} {sbi_utils : @SbiUtils Scalar}.

Local Abbreviation Tensor := (@Tensor Scalar).
Local Abbreviation PyVal := (@PyVal Scalar).
Local Abbreviation PriorLike := (@PriorLike Scalar).
Local Abbreviation Dist := (@Dist Scalar).
Local Abbreviation Simulator := (@Simulator Scalar).
Local Abbreviation UserSimulator := (@UserSimulator Scalar).
Local Abbreviation Net := (@Net Scalar).

(* ===================================================================== *)
(** ** Properties of check_for_possibly_batched_x_shape *)
(* ===================================================================== *)

Lemma rank_cons (d : Z) (rest : Shape) : rank (d :: rest) = 1 + rank rest.
Proof. unfold rank; cbn [List.length]; lia. Qed.

Lemma rank_nonneg (s : Shape) : 0 <= rank s.
Proof. unfold rank; lia. Qed.

Lemma check_x_shape_cons (d : Z) (rest : Shape) :
  check_for_possibly_batched_x_shape (d :: rest) =
  if (rank (d :: rest) >? 1) && (d >? 1)
  then Raise (mkExc ValueError msg_batched_x None)
  else Ok tt.
Proof. reflexivity. Qed.

Lemma batched_shape_decide (d : Z) (rest : Shape) :
  (rank (d :: rest) >? 1) && (d >? 1) = true <-> batched_shape (d :: rest).
Proof.
  unfold batched_shape; cbn [hd].
  rewrite andb_true_iff, !Z.gtb_lt; tauto.
Qed.

(** C1, as amended: on every shape of rank at least 1 the function raises
    the guidance [ValueError] exactly when the rank exceeds 1 and the leading
    dimension exceeds 1, and returns normally otherwise; [(1,)], [(3,)],
    [(2,)], [(1, 3)] and [(1, 2, 3)] pass, [(2, 3)] and [(2, 2, 3)] raise. *)
Theorem check_x_shape_rule_nonempty :
  (forall s : Shape, s <> [] ->
     (check_for_possibly_batched_x_shape s
        = Raise (mkExc ValueError msg_batched_x None) <-> batched_shape s)
     /\ (~ batched_shape s -> check_for_possibly_batched_x_shape s = Ok tt))
  /\ check_for_possibly_batched_x_shape [1] = Ok tt
  /\ check_for_possibly_batched_x_shape [3] = Ok tt
  /\ check_for_possibly_batched_x_shape [2] = Ok tt
  /\ check_for_possibly_batched_x_shape [1; 3] = Ok tt
  /\ check_for_possibly_batched_x_shape [1; 2; 3] = Ok tt
  /\ raises_ValueError (check_for_possibly_batched_x_shape [2; 3])
  /\ raises_ValueError (check_for_possibly_batched_x_shape [2; 2; 3]).
Proof.
  split.
  - intros [| d rest] Hne; [congruence |].
    rewrite check_x_shape_cons.
    destruct ((rank (d :: rest) >? 1) && (d >? 1)) eqn:E.
    + apply batched_shape_decide in E. split; [tauto | intros H; tauto].
    + assert (~ batched_shape (d :: rest)) as Hn
        by (intros H; apply batched_shape_decide in H; congruence).
      split; [split; [discriminate | tauto] | reflexivity].
  - repeat split; try reflexivity;
      exists msg_batched_x, None; reflexivity.
Qed.

(** C9: the empty shape makes the unpacking of the leading dimension raise
    a [ValueError] that is not the guidance error, so it neither passes nor
    is rejected as documented; every shape of rank at least 1 is decided by
    the accept/reject rule. *)
Theorem check_x_shape_empty_unpack_error :
  check_for_possibly_batched_x_shape []
    = Raise (mkExc ValueError msg_unpack_empty None)
  /\ msg_unpack_empty <> msg_batched_x
  /\ check_for_possibly_batched_x_shape [] <> Ok tt
  /\ (forall (d : Z) (rest : Shape),
        check_for_possibly_batched_x_shape (d :: rest)
        = if (rank (d :: rest) >? 1) && (d >? 1)
          then Raise (mkExc ValueError msg_batched_x None)
          else Ok tt).
Proof.
  split; [reflexivity |].
  split; [discriminate |].
  split; [discriminate |].
  intros d rest; reflexivity.
Qed.

(* ===================================================================== *)
(** ** Properties of check_prior_attributes *)
(* ===================================================================== *)



(* ===================================================================== *)
(** ** Properties of process_x *)
(* ===================================================================== *)

Lemma DType_eqb_eq (a b : DType) : DType_eqb a b = true <-> a = b.
Proof. destruct a, b; cbn; split; congruence. Qed.

Lemma DType_eqb_refl (a : DType) : DType_eqb a a = true.
Proof. apply DType_eqb_eq; reflexivity. Qed.

Lemma Shape_eqb_eq (a b : Shape) : Shape_eqb a b = true <-> a = b.
Proof.
  unfold Shape_eqb; destruct (list_eq_dec Z.eq_dec a b); split; congruence.
Qed.

Lemma Shape_eqb_refl (a : Shape) : Shape_eqb a a = true.
Proof. apply Shape_eqb_eq; reflexivity. Qed.

Lemma to_dtype_same (t : Tensor) (d : DType) :
  dtype t = d -> to_dtype t d = t.
Proof.
  intros <-; unfold to_dtype; rewrite DType_eqb_refl; reflexivity.
Qed.

Lemma dtype_to_dtype (t : Tensor) (d : DType) : dtype (to_dtype t d) = d.
Proof.
  unfold to_dtype; destruct (DType_eqb (dtype t) d) eqn:E; [| reflexivity].
  apply DType_eqb_eq; assumption.
Qed.

Lemma as_tensor_dtype (v : PyVal) (d : DType) (t : Tensor) :
  as_tensor v (Some d) = Ok t -> dtype t = d.
Proof.
  destruct v; cbn; intros H; try discriminate;
    injection H as <-; apply dtype_to_dtype.
Qed.

Lemma atleast_2d_dtype (t : Tensor) : dtype (atleast_2d t) = dtype t.
Proof. unfold atleast_2d; destruct (ndim t <? 2); reflexivity. Qed.

Lemma atleast_2d_ndim (t : Tensor) : 2 <= ndim (atleast_2d t).
Proof.
  unfold atleast_2d; destruct (ndim t <? 2) eqn:E.
  - unfold ndim, rank; cbn; lia.
  - apply Z.ltb_ge in E; assumption.
Qed.

Lemma atleast_2d_fixed (t : Tensor) : 2 <= ndim t -> atleast_2d t = t.
Proof.
  intros H; unfold atleast_2d.
  destruct (ndim t <? 2) eqn:E; [apply Z.ltb_lt in E; lia | reflexivity].
Qed.

Lemma rank_tl (s : Shape) : 1 <= rank s -> rank (tl s) = rank s - 1.
Proof. destruct s as [| d r]; unfold rank; cbn [tl List.length]; lia. Qed.

(** Once normalised, a tensor is left as it is: a [float32] tensor of rank
    at least 2 whose trailing dimensions match the event shape. *)
Lemma process_x_normalised (y : Tensor) (x_event_shape : option Shape) :
  dtype y = float32 ->
  2 <= ndim y ->
  (forall es, x_event_shape = Some es -> tl (shape y) = es) ->
  process_x (VTensor y) x_event_shape = Ok y.
Proof.
  intros Hd Hn Hes. unfold process_x. cbn [as_tensor bind Monad_Result].
  rewrite (to_dtype_same y float32 Hd), (atleast_2d_fixed y Hn).
  destruct x_event_shape as [es |]; [| reflexivity].
  specialize (Hes es eq_refl). subst es.
  assert (rank (tl (shape y)) = rank (shape y) - 1) as Hr
    by (apply rank_tl; unfold ndim in Hn; lia).
  replace (rank (tl (shape y)) >? rank (shape y)) with false
    by (symmetry; rewrite Z.gtb_ltb; apply Z.ltb_ge; lia).
  replace (rank (tl (shape y)) =? rank (shape y)) with false
    by (symmetry; apply Z.eqb_neq; lia).
  rewrite Shape_eqb_refl. reflexivity.
Qed.

(** C4: [process_x] is idempotent: when [process_x(x, x_event_shape)]
    succeeds with a tensor, applying [process_x] to that tensor with the
    same [x_event_shape] succeeds and returns the same tensor. *)
Theorem process_x_idempotent
  (x : PyVal) (x_event_shape : option Shape) (y : Tensor) :
  process_x x x_event_shape = Ok y ->
  process_x (VTensor y) x_event_shape = Ok y.
Proof.
  intros H. unfold process_x in H.
  destruct (as_tensor x (Some float32)) as [x0 | e] eqn:Hx0;
    cbn [bind Monad_Result] in H; [| discriminate].
  pose proof (as_tensor_dtype _ _ _ Hx0) as Hd0.
  pose proof (atleast_2d_ndim x0) as Hn1.
  pose proof (atleast_2d_dtype x0) as Hd1. rewrite Hd0 in Hd1.
  set (x1 := atleast_2d x0) in *.
  destruct x_event_shape as [es |].
  - destruct (rank es >? rank (shape x1)); [discriminate |].
    set (x2 := if rank es =? rank (shape x1) then unsqueeze0 x1 else x1) in *.
    unfold py_assert in H.
    destruct (Shape_eqb (tl (shape x2)) es) eqn:Htl; [| discriminate].
    injection H as <-.
    apply Shape_eqb_eq in Htl.
    apply process_x_normalised.
    + subst x2; destruct (rank es =? rank (shape x1)); assumption.
    + subst x2; destruct (rank es =? rank (shape x1)); [| assumption].
      unfold ndim in *; cbn [shape unsqueeze0]; rewrite rank_cons; lia.
    + intros es' [= <-]; assumption.
  - injection H as <-.
    apply process_x_normalised; [assumption | assumption | discriminate].
Qed.

(* ===================================================================== *)
(** ** Properties of process_simulator *)
(* ===================================================================== *)

(** C10: the processed simulator does not depend on [is_numpy_simulator]:
    with the flag [True] and with the flag [False], [process_simulator]
    returns the same simulator (or fails alike), which computes the same
    result on every input; the type-bridging wrapper ignores the flag. *)
Theorem process_simulator_ignores_is_numpy
  (user_simulator : UserSimulator) (prior : Dist) :
  process_simulator user_simulator prior true
  = process_simulator user_simulator prior false
  /\ (forall theta : PyVal,
        call_processed (process_simulator user_simulator prior true) theta
        = call_processed (process_simulator user_simulator prior false) theta)
  /\ (forall (simulator : Simulator) (theta : PyVal),
        wrap_as_joblib_efficient_simulator simulator prior true theta
        = wrap_as_joblib_efficient_simulator simulator prior false theta).
Proof.
  split; [| split].
  - destruct user_simulator as [f | n]; reflexivity.
  - intros theta; destruct user_simulator as [f | n]; reflexivity.
  - intros simulator theta; reflexivity.
Qed.

(* ===================================================================== *)
(** ** Properties of test_posterior_net_for_multi_d_x *)
(* ===================================================================== *)

(** C7, as amended: when the log-density probe fails with a [RuntimeError],
    the function raises a new [RuntimeError] chained to the original: its
    message is empty when [x] has rank at most 2, and is the debug hint
    naming the dimensionality [x.ndim - 1] when [x] has rank at least 3. *)
Theorem posterior_net_probe_runtime_error
  (net : Net) (theta x : Tensor) (rte : Exc) :
  log_prob_probe net theta x = Raise rte ->
  caught_by RuntimeError rte = true ->
  (ndim x <= 2 ->
   test_posterior_net_for_multi_d_x net theta x
   = Raise (mkExc RuntimeError "" (Some rte)))
  /\ (3 <= ndim x ->
      test_posterior_net_for_multi_d_x net theta x
      = Raise (mkExc RuntimeError (msg_debug_hint (ndim x - 1)) (Some rte))).
Proof.
  intros Hprobe Hrte. unfold test_posterior_net_for_multi_d_x, raise_from.
  rewrite Hprobe, Hrte. cbv zeta.
  split; intros Hn.
  - replace (ndim x >? 2) with false
      by (symmetry; rewrite Z.gtb_ltb; apply Z.ltb_ge; lia).
    reflexivity.
  - replace (ndim x >? 2) with true
      by (symmetry; rewrite Z.gtb_ltb; apply Z.ltb_lt; lia).
    reflexivity.
Qed.

(* ===================================================================== *)
(** ** Properties of validate_theta_and_x *)
(* ===================================================================== *)

Lemma msg_batch_mismatch_head (n m : Z) :
  exists rest, msg_batch_mismatch n m = String "N"%char rest.
Proof. unfold msg_batch_mismatch; cbn [String.append]; eauto. Qed.

(** C6: two [float32] tensors with the same leading dimension that reside on
    the data device are returned unchanged, and nothing is warned; tensors
    whose leading dimensions differ fail an assertion; that both arguments
    are tensors and that both are [float32] is asserted too, and the five
    assertion messages differ from one another. *)
Theorem validate_theta_and_x_contract
  (data_device training_device : string) (st : State) :
  (forall (theta x : Tensor) (n : Z),
      shape0 theta = Ok n -> shape0 x = Ok n ->
      dtype theta = float32 -> dtype x = float32 ->
      device theta = data_device -> device x = data_device ->
      validate_theta_and_x (VTensor theta) (VTensor x)
        data_device training_device st
      = (Ok (theta, x), st))
  /\ (forall (theta x : Tensor) (n m : Z),
        shape0 theta = Ok n -> shape0 x = Ok m -> n <> m ->
        validate_theta_and_x (VTensor theta) (VTensor x)
          data_device training_device st
        = (Raise (mkExc AssertionError (msg_batch_mismatch n m) None), st))
  /\ (forall theta x : PyVal,
        as_Tensor theta = None ->
        validate_theta_and_x theta x data_device training_device st
        = (Raise (mkExc AssertionError msg_theta_tensor None), st))
  /\ (forall (theta : Tensor) (x : PyVal),
        as_Tensor x = None ->
        validate_theta_and_x (VTensor theta) x data_device training_device st
        = (Raise (mkExc AssertionError msg_x_tensor None), st))
  /\ (forall (theta x : Tensor) (n : Z),
        shape0 theta = Ok n -> shape0 x = Ok n ->
        dtype theta <> float32 ->
        validate_theta_and_x (VTensor theta) (VTensor x)
          data_device training_device st
        = (Raise (mkExc AssertionError msg_theta_float32 None), st))
  /\ (forall (theta x : Tensor) (n : Z),
        shape0 theta = Ok n -> shape0 x = Ok n ->
        dtype theta = float32 -> dtype x <> float32 ->
        validate_theta_and_x (VTensor theta) (VTensor x)
          data_device training_device st
        = (Raise (mkExc AssertionError msg_x_float32 None), st))
  /\ (forall n m : Z,
        NoDup [msg_theta_tensor; msg_x_tensor; msg_batch_mismatch n m;
               msg_theta_float32; msg_x_float32]).
Proof.
  repeat apply conj.
  - intros theta x n Ht Hx Hdt Hdx Hdevt Hdevx.
    unfold validate_theta_and_x; cbn [as_Tensor bind Monad_M lift].
    rewrite Ht, Hx, Z.eqb_refl, Hdt, Hdx, Hdevt, Hdevx.
    cbn. rewrite String.eqb_refl. reflexivity.
  - intros theta x n m Ht Hx Hne.
    unfold validate_theta_and_x; cbn [as_Tensor bind Monad_M lift].
    rewrite Ht, Hx. apply Z.eqb_neq in Hne. rewrite Hne. reflexivity.
  - intros theta x Hnone.
    unfold validate_theta_and_x; rewrite Hnone; reflexivity.
  - intros theta x Hnone.
    unfold validate_theta_and_x; cbn [as_Tensor]; rewrite Hnone; reflexivity.
  - intros theta x n Ht Hx Hdt.
    unfold validate_theta_and_x; cbn [as_Tensor bind Monad_M lift].
    rewrite Ht, Hx, Z.eqb_refl.
    destruct (DType_eqb (dtype theta) float32) eqn:E;
      [apply DType_eqb_eq in E; contradiction | reflexivity].
  - intros theta x n Ht Hx Hdt Hdx.
    unfold validate_theta_and_x; cbn [as_Tensor bind Monad_M lift].
    rewrite Ht, Hx, Z.eqb_refl, Hdt.
    destruct (DType_eqb (dtype x) float32) eqn:E;
      [apply DType_eqb_eq in E; contradiction | reflexivity].
  - intros n m. destruct (msg_batch_mismatch_head n m) as [rest ->].
    repeat constructor; cbn; intuition discriminate.
Qed.

(* ===================================================================== *)
(** ** Properties of process_prior *)
(* ===================================================================== *)

(** C3: for a PyTorch distribution whose [sample()] is a scalar (rank 0),
    [process_prior] raises the scalar-prior [ValueError]; the argument
    validation has been switched off by then, and nothing else has been
    checked, wrapped or warned. *)
Theorem process_prior_scalar_prior_rejected
  (d : Dist) (kwargs : option Kwargs) (st : State) (t : Tensor) :
  sample d [] = Ok t ->
  ndim t = 0 ->
  process_prior (PDistribution d) kwargs st
  = (Raise (mkExc ValueError msg_scalar_prior None),
     mkState false (warnings st)).
Proof.
  intros Hs Hn.
  cbn [process_prior]. unfold process_pytorch_prior.
  cbn [bind Monad_M set_default_validate_args lift].
  rewrite Hs, Hn. reflexivity.
Qed.

Lemma shape_one_dimensional (s : Shape) :
  rank s = 1 -> numel s = 1 -> s = [1].
Proof.
  destruct s as [| d [| d' r]]; unfold rank; cbn [List.length numel fold_right];
    intros Hr Hn; try lia.
  f_equal; lia.
Qed.

(** C2, as amended: for a one-dimensional [Uniform] prior of batch
    multiplicity 1 whose bounds are [float32] and are stored by [BoxUniform]
    as they are, [process_prior] returns the [BoxUniform] with the bounds of
    the [Uniform], of one parameter, and emits exactly one warning. *)
Theorem process_prior_uniform_1d_float32
  (low high : Tensor) (kwargs : option Kwargs) (st : State) :
  rank (batch_shape (Uniform low high)) = 1 ->
  numel (batch_shape (Uniform low high)) = 1 ->
  dtype low = float32 ->
  dtype high = float32 ->
  box_bound low = low ->
  box_bound high = high ->
  process_prior (PDistribution (Uniform low high)) kwargs st
  = (Ok (BoxUniform low high, 1, false),
     mkState false (msg_cast_box_uniform :: warnings st)).
Proof.
  intros Hr Hn Hdl Hdh Hbl Hbh.
  cbn [batch_shape] in Hr, Hn.
  pose proof (shape_one_dimensional _ Hr Hn) as Hs.
  destruct low as [sl dl devl datal], high as [sh dh devh datah].
  cbn [shape dtype] in Hs, Hdl, Hdh. subst sl dl dh.
  cbn [process_prior]. unfold process_pytorch_prior, BoxUniform_init.
  cbn [bind Monad_M set_default_validate_args lift sample batch_shape shape].
  rewrite Hbl, Hbh.
  reflexivity.
Qed.

(* ===================================================================== *)
(** ** Properties of ensure_batched_simulator *)
(* ===================================================================== *)

Lemma map_result_Forall2 {A B : Type} (f : A -> Result B)
  (xs : list A) (ys : list B) :
  Forall2 (fun x y => f x = Ok y) xs ys -> map_result f xs = Ok ys.
Proof.
  induction 1 as [| x y xs ys Hxy _ IH]; cbn [map_result bind Monad_Result].
  - reflexivity.
  - rewrite Hxy, IH. reflexivity.
Qed.

Lemma expect_tensors_VTensor (ts : list Tensor) :
  expect_tensors (map VTensor ts) = Ok ts.
Proof.
  induction ts as [| t r IH]; cbn [map expect_tensors bind Monad_Result].
  - reflexivity.
  - rewrite IH. reflexivity.
Qed.

Lemma chunks_length {A : Type} (k n : nat) (l : list A) :
  List.length (chunks k n l) = n.
Proof.
  revert l; induction n as [| n IH]; intros l; cbn [chunks List.length].
  - reflexivity.
  - rewrite IH. reflexivity.
Qed.

Lemma rows_length (t : Tensor) :
  List.length (rows t) = Z.to_nat (hd 0 (shape t)).
Proof.
  unfold rows. destruct (shape t) as [| n rest]; cbn [hd].
  - reflexivity.
  - rewrite length_map, chunks_length. reflexivity.
Qed.

Lemma forallb_Forall_true {A : Type} (p : A -> bool) (l : list A) :
  Forall (fun a => p a = true) l -> forallb p l = true.
Proof. intros H; apply forallb_forall; apply Forall_forall; assumption. Qed.

(** [torch.stack] over tensors of one shape on one device. *)
Lemma stack_same_shape (o : Tensor) (outs : list Tensor) :
  Forall (fun u => shape u = shape o /\ device u = device o) outs ->
  stack (map VTensor (o :: outs))
  = let d := fold_left promote_types (map dtype outs) (dtype o) in
    Ok (mkTensor (Z.of_nat (List.length (o :: outs)) :: shape o) d (device o)
          (List.concat (map (fun u => data (to_dtype u d)) (o :: outs)))).
Proof.
  intros Hall. unfold stack.
  rewrite expect_tensors_VTensor. cbn [bind Monad_Result].
  rewrite (forallb_Forall_true
             (fun u => Shape_eqb (shape u) (shape o)) outs).
  2:{ eapply Forall_impl; [| exact Hall].
      intros u [Hs _]; apply Shape_eqb_eq; assumption. }
  rewrite (forallb_Forall_true
             (fun u => String.eqb (device u) (device o)) outs).
  2:{ eapply Forall_impl; [| exact Hall].
      intros u [_ Hd]; apply String.eqb_eq; assumption. }
  reflexivity.
Qed.

Lemma probe_fails_caught (simulator : Simulator) (prior : Dist) :
  probe_fails simulator prior ->
  exists e, batch_probe simulator prior = Raise e
            /\ caught_by_Exception e = true.
Proof.
  unfold probe_fails, batch_probe. cbv zeta.
  destruct (sample prior [2]) as [theta | e]; cbn [bind Monad_Result].
  2:{ intros H; exists e; split; [reflexivity | assumption]. }
  destruct (simulator (VTensor theta)) as [[out | out | n] | e];
    cbn [bind Monad_Result py_shape].
  - intros [Hr | Hl]; unfold py_assert.
    + replace (rank (shape out) >? 1) with false
        by (symmetry; rewrite Z.gtb_ltb; apply Z.ltb_ge; lia).
      eexists; split; reflexivity.
    + destruct (rank (shape out) >? 1); cbn [bind Monad_Result].
      * apply Z.eqb_neq in Hl. rewrite Hl. eexists; split; reflexivity.
      * eexists; split; reflexivity.
  - intros [Hr | Hl]; unfold py_assert.
    + replace (rank (shape out) >? 1) with false
        by (symmetry; rewrite Z.gtb_ltb; apply Z.ltb_ge; lia).
      eexists; split; reflexivity.
    + destruct (rank (shape out) >? 1); cbn [bind Monad_Result].
      * apply Z.eqb_neq in Hl. rewrite Hl. eexists; split; reflexivity.
      * eexists; split; reflexivity.
  - intros _. eexists; split; reflexivity.
  - intros H; exists e; split; [reflexivity | assumption].
Qed.

(** C5: when the batch probe fails, [ensure_batched_simulator] returns the
    loop wrapper.  Given a batch [theta] of rank above 1, the wrapper applies
    the simulator to each of the [n] rows on its own and returns the [n]
    results stacked along a new leading dimension of size [n]; given an input
    of rank at most 1 it fails its assertion. *)
Theorem ensure_batched_simulator_loop_fallback
  (simulator : Simulator) (prior : Dist) :
  probe_fails simulator prior ->
  ensure_batched_simulator simulator prior
  = Ok (get_batch_loop_simulator simulator)
  /\ (forall (theta o : Tensor) (outs : list Tensor),
        1 < ndim theta ->
        Forall2 (fun row out => simulator (VTensor row) = Ok (VTensor out))
          (rows theta) (o :: outs) ->
        Forall (fun u => shape u = shape o /\ device u = device o) outs ->
        let d := fold_left promote_types (map dtype outs) (dtype o) in
        Z.of_nat (List.length (o :: outs)) = hd 0 (shape theta)
        /\ get_batch_loop_simulator simulator (VTensor theta)
           = Ok (VTensor
                   (mkTensor (hd 0 (shape theta) :: shape o) d (device o)
                      (List.concat
                         (map (fun u => data (to_dtype u d)) (o :: outs))))))
  /\ (forall theta : Tensor,
        ndim theta <= 1 ->
        get_batch_loop_simulator simulator (VTensor theta)
        = Raise (mkExc AssertionError msg_theta_batch_dim None)).
Proof.
  intros Hprobe. split; [| split].
  - destruct (probe_fails_caught _ _ Hprobe) as (e & He & Hc).
    unfold ensure_batched_simulator. rewrite He, Hc. reflexivity.
  - intros theta o outs Hnd Hrows Hall d.
    assert (Z.of_nat (List.length (o :: outs)) = hd 0 (shape theta)) as Hlen.
    { pose proof (Forall2_length Hrows) as Hl.
      rewrite rows_length in Hl. cbn [List.length] in *. lia. }
    split; [exact Hlen |].
    unfold get_batch_loop_simulator.
    cbn [py_ndim bind Monad_Result py_iter]. unfold py_assert.
    replace (ndim theta >? 1) with true
      by (symmetry; rewrite Z.gtb_ltb; apply Z.ltb_lt; lia).
    replace (ndim theta =? 0) with false
      by (symmetry; apply Z.eqb_neq; lia).
    cbn [bind Monad_Result].
    rewrite (map_result_Forall2 simulator (map VTensor (rows theta))
               (map VTensor (o :: outs))).
    2:{ clear -Hrows. induction Hrows; cbn [map]; constructor; assumption. }
    cbn [bind Monad_Result].
    rewrite (stack_same_shape o outs Hall). cbv zeta.
    cbn [bind Monad_Result]. fold d. rewrite Hlen. reflexivity.
  - intros theta Hnd.
    unfold get_batch_loop_simulator.
    cbn [py_ndim bind Monad_Result]. unfold py_assert.
    replace (ndim theta >? 1) with false
      by (symmetry; rewrite Z.gtb_ltb; apply Z.ltb_ge; lia).
    reflexivity.
Qed.

End Properties.

(* ===================================================================== *)
(** * The properties at concrete inputs *)
(* ===================================================================== *)

(** The rule on the shape [(2, 3)], which is not empty. *)
Lemma check_x_shape_rule_at_2_3 :
  [2; 3] <> []
  /\ (check_for_possibly_batched_x_shape [2; 3]
        = Raise (mkExc ValueError msg_batched_x None)
      <-> batched_shape [2; 3]).
Proof.
  assert ([2; 3] <> ([] : Shape)) as Hne by discriminate.
  split; [exact Hne |].
  exact (proj1 (proj1 check_x_shape_rule_nonempty [2; 3] Hne)).
Defined.

(** On the empty shape the rule of C1 fails: the shape is not one of rank
    above 1 with a leading dimension above 1, yet the function raises a
    [ValueError] and does not return normally. *)
Lemma check_x_shape_rule_fails_on_empty :
  ~ ((raises_ValueError (check_for_possibly_batched_x_shape [])
      <-> batched_shape [])
     /\ (~ batched_shape [] -> check_for_possibly_batched_x_shape [] = Ok tt)).
Proof.
  intros [_ Hok].
  assert (~ batched_shape []) as Hnb
    by (unfold batched_shape, rank; cbn; lia).
  specialize (Hok Hnb). discriminate Hok.
Qed.


(** [Uniform(0., 1.)], whose sample is a scalar, is rejected. *)
Lemma process_prior_scalar_uniform :
  process_prior (sbi_utils := sbi_float32_bounds)
    (PDistribution (Uniform (mkTensor [] float32 "cpu" [0])
                            (mkTensor [] float32 "cpu" [1])))
    None initial_state
  = (Raise (mkExc ValueError msg_scalar_prior None), mkState false []).
Proof.
  eapply (process_prior_scalar_prior_rejected
            (sbi_utils := sbi_float32_bounds)); reflexivity.
Defined.

(** [Uniform(zeros(1), ones(1))] becomes the [BoxUniform] over the same
    bounds, with one warning. *)
Lemma process_prior_uniform_zeros_ones :
  process_prior (sbi_utils := sbi_float32_bounds)
    (PDistribution (Uniform (tensor1 float32 0) (tensor1 float32 1)))
    None initial_state
  = (Ok (BoxUniform (tensor1 float32 0) (tensor1 float32 1), 1, false),
     mkState false [msg_cast_box_uniform]).
Proof.
  apply (process_prior_uniform_1d_float32
           (sbi_utils := sbi_float32_bounds)); reflexivity.
Defined.

(** [Uniform(zeros(1, 1), ones(1, 1))] has batch multiplicity 1 but two
    batch dimensions: its [BoxUniform] gives log-densities of shape
    [(10, 1)] and comes back inside a [OneDimPriorWrapper]. *)
Lemma process_prior_uniform_two_batch_dims :
  process_prior (sbi_utils := sbi_float32_bounds)
    (PDistribution (Uniform (mkTensor [1; 1] float32 "cpu" [0])
                            (mkTensor [1; 1] float32 "cpu" [1])))
    None initial_state
  = (Ok (OneDimPriorWrapper
           (BoxUniform (mkTensor [1; 1] float32 "cpu" [0])
                       (mkTensor [1; 1] float32 "cpu" [1])),
         1, false),
     mkState false [msg_cast_box_uniform]).
Proof. reflexivity. Qed.

(** With [float64] bounds that [float32] does not hold the claim of C2
    fails: [BoxUniform] converts its bounds to [float32], so the [Uniform]
    between 0 and [2^24 + 1] comes back as the [BoxUniform] between 0 and
    [2^24], whose upper bound is not that of the [Uniform]. *)
Lemma process_prior_uniform_float64 :
  process_prior (sbi_utils := sbi_float32_bounds)
    (PDistribution (Uniform (tensor1 float64 0) (tensor1 float64 16777217)))
    None initial_state
  = (Ok (BoxUniform (tensor1 float32 0) (tensor1 float32 16777216),
         1, false),
     mkState false [msg_cast_box_uniform])
  /\ data (tensor1 float32 16777216) <> data (tensor1 float64 16777217).
Proof.
  split; [reflexivity | discriminate].
Qed.

(** A [float64] array of 3 values with event shape [(3,)]: the result of
    [process_x] is left as it is by a second application. *)
Lemma process_x_twice_on_array :
  process_x (VTensor (mkTensor [1; 3] float32 "cpu" [1; 2; 16777216])) (Some [3])
  = Ok (mkTensor [1; 3] float32 "cpu" [1; 2; 16777216]).
Proof.
  apply (process_x_idempotent
           (VNdarray (mkTensor [3] float64 "cpu" [1; 2; 16777217])) (Some [3]));
    reflexivity.
Defined.

(** [lambda theta: theta.sum()] fails the batch probe, and its loop wrapper
    turns a batch of 4 parameter vectors into the 4 sums stacked; a single
    parameter vector fails the assertion of the wrapper. *)
Lemma batch_loop_sums_of_4_rows :
  ensure_batched_simulator sum_simulator prior_2d
  = Ok (get_batch_loop_simulator sum_simulator)
  /\ get_batch_loop_simulator sum_simulator (VTensor theta_4x2)
     = Ok (VTensor (mkTensor [4] float32 "cpu" [3; 7; 11; 15]))
  /\ get_batch_loop_simulator sum_simulator
       (VTensor (mkTensor [2] float32 "cpu" [1; 2]))
     = Raise (mkExc AssertionError msg_theta_batch_dim None).
Proof.
  assert (probe_fails sum_simulator prior_2d) as Hprobe
    by (left; unfold rank; cbn; lia).
  destruct (ensure_batched_simulator_loop_fallback sum_simulator prior_2d
              Hprobe) as (Hwrap & Hstack & Hassert).
  split; [exact Hwrap | split].
  - refine (proj2 (Hstack theta_4x2 (mkTensor [] float32 "cpu" [3])
                     [mkTensor [] float32 "cpu" [7];
                      mkTensor [] float32 "cpu" [11];
                      mkTensor [] float32 "cpu" [15]] _ _ _)).
    + unfold ndim, rank; cbn; lia.
    + repeat constructor.
    + repeat constructor.
  - apply Hassert. unfold ndim, rank; cbn; lia.
Defined.

(** [theta] of shape [(5, 2)] and [x] of shape [(5, 3)] come back as they
    are; with an [x] of shape [(4, 3)] the batch assertion fails. *)
Lemma validate_theta_and_x_5_rows :
  validate_theta_and_x
    (VTensor (mkTensor [5; 2] float32 "cpu" (zeros [5; 2])))
    (VTensor (mkTensor [5; 3] float32 "cpu" (zeros [5; 3])))
    "cpu" "cpu" initial_state
  = (Ok (mkTensor [5; 2] float32 "cpu" (zeros [5; 2]),
         mkTensor [5; 3] float32 "cpu" (zeros [5; 3])),
     initial_state)
  /\ validate_theta_and_x
       (VTensor (mkTensor [5; 2] float32 "cpu" (zeros [5; 2])))
       (VTensor (mkTensor [4; 3] float32 "cpu" (zeros [4; 3])))
       "cpu" "cpu" initial_state
     = (Raise (mkExc AssertionError (msg_batch_mismatch 5 4) None),
        initial_state).
Proof.
  destruct (validate_theta_and_x_contract (torch := Ztorch)
              "cpu" "cpu" initial_state)
    as (Hsame & Hmismatch & _).
  split.
  - apply (Hsame _ _ 5); reflexivity.
  - apply (Hmismatch _ _ 5 4); [reflexivity | reflexivity | discriminate].
Defined.

(** A net that fails with a [RuntimeError]: with an [x] of shape [(2, 3)]
    the error raised has an empty message, with an [x] of shape [(2, 3, 3)]
    it has the hint for 2 dimensions; both chain the original. *)
Lemma posterior_net_probe_on_failing_net :
  test_posterior_net_for_multi_d_x failing_net
    (mkTensor [2; 2] float32 "cpu" (zeros [2; 2]))
    (mkTensor [2; 3] float32 "cpu" (zeros [2; 3]))
  = Raise (mkExc RuntimeError "" (Some shape_error))
  /\ test_posterior_net_for_multi_d_x failing_net
       (mkTensor [2; 2] float32 "cpu" (zeros [2; 2]))
       (mkTensor [2; 3; 3] float32 "cpu" (zeros [2; 3; 3]))
     = Raise (mkExc RuntimeError (msg_debug_hint 2) (Some shape_error)).
Proof.
  split.
  - refine (proj1 (posterior_net_probe_runtime_error failing_net _ _
                     shape_error _ _) _);
      [reflexivity | reflexivity | unfold ndim, rank; cbn; lia].
  - refine (proj2 (posterior_net_probe_runtime_error failing_net _ _
                     shape_error _ _) _);
      [reflexivity | reflexivity | unfold ndim, rank; cbn; lia].
Defined.

(** The error is not re-raised unchanged when [x] is not multidimensional:
    with an [x] of shape [(2, 3)] what is raised is not the original error,
    whose message it has lost. *)
Lemma posterior_net_error_not_unchanged :
  log_prob_probe failing_net
    (mkTensor [2; 2] float32 "cpu" (zeros [2; 2]))
    (mkTensor [2; 3] float32 "cpu" (zeros [2; 3]))
  = Raise shape_error
  /\ ndim (mkTensor [2; 3] float32 "cpu" (zeros [2; 3])) = 2
  /\ test_posterior_net_for_multi_d_x failing_net
       (mkTensor [2; 2] float32 "cpu" (zeros [2; 2]))
       (mkTensor [2; 3] float32 "cpu" (zeros [2; 3]))
     <> Raise shape_error.
Proof.
  split; [reflexivity | split; [reflexivity | discriminate]].
Qed.

(* ===================================================================== *)
(** * Further properties *)
(* ===================================================================== *)

Section FurtherProperties.

Context {Scalar : Type} {torch : @Torch Scalar} {sbi_utils : @SbiUtils Scalar}
        {sbi_support : @SbiSupport Scalar}.

Local Abbreviation Tensor := (@Tensor Scalar).
Local Abbreviation PyVal := (@PyVal Scalar).
Local Abbreviation PriorLike := (@PriorLike Scalar).
Local Abbreviation PriorObj := (@PriorObj Scalar).
Local Abbreviation Dist := (@Dist Scalar).
Local Abbreviation Simulator := (@Simulator Scalar).
Local Abbreviation UserSimulator := (@UserSimulator Scalar).
Local Abbreviation Net := (@Net Scalar).

(** *** Inversion of the two monads *)

Lemma Result_bind_Ok {A B : Type} (c : Result A) (k : A -> Result B) (b : B) :
  bind c k = Ok b -> exists a, c = Ok a /\ k a = Ok b.
Proof.
  destruct c as [a | e]; cbn [bind Monad_Result]; intros H;
    [exists a; auto | discriminate].
Qed.

Lemma M_bind_Ok {A B : Type} (c : M A) (k : A -> M B)
  (st st' : State) (b : B) :
  bind c k st = (Ok b, st') ->
  exists a st1, c st = (Ok a, st1) /\ k a st1 = (Ok b, st').
Proof.
  cbn [bind Monad_M]. destruct (c st) as [[a | e] st1]; intros H.
  - exists a, st1; auto.
  - discriminate.
Qed.

Lemma lift_Ok {A : Type} (r : Result A) (st st' : State) (a : A) :
  lift r st = (Ok a, st') -> r = Ok a /\ st' = st.
Proof. unfold lift; intros [= -> ->]; auto. Qed.

Lemma py_assert_Ok (cond : bool) (msg : string) (u : unit) :
  py_assert cond msg = Ok u -> cond = true.
Proof. destruct cond; cbn; [reflexivity | discriminate]. Qed.

(** *** process_x *)

Lemma shape_to_dtype (t : Tensor) (d : DType) : shape (to_dtype t d) = shape t.
Proof. unfold to_dtype; destruct (DType_eqb (dtype t) d); reflexivity. Qed.

Lemma device_to_dtype (t : Tensor) (d : DType) :
  device (to_dtype t d) = device t.
Proof. unfold to_dtype; destruct (DType_eqb (dtype t) d); reflexivity. Qed.

Lemma dtype_to_dtype' (t : Tensor) (d : DType) : dtype (to_dtype t d) = d.
Proof.
  unfold to_dtype; destruct (DType_eqb (dtype t) d) eqn:E; [| reflexivity].
  destruct (dtype t), d; cbn in E; congruence.
Qed.

Lemma atleast_2d_keeps (t : Tensor) :
  dtype (atleast_2d t) = dtype t
  /\ device (atleast_2d t) = device t
  /\ data (atleast_2d t) = data t
  /\ ndim (atleast_2d t) = Z.max 2 (ndim t).
Proof.
  unfold atleast_2d. destruct (ndim t <? 2) eqn:E.
  - apply Z.ltb_lt in E. repeat split.
    unfold ndim at 1. cbn [shape]. unfold rank at 1. cbn [List.length]. lia.
  - apply Z.ltb_ge in E. repeat split. lia.
Qed.

(** X1: what [process_x] returns is a [float32] tensor of rank at least 2
    whose dimensions after the first are the event shape, when one is
    given; it holds the elements of the input converted to [float32], in
    their order and on their device: only the shape is adapted. *)
Theorem process_x_postcondition
  (x : PyVal) (x_event_shape : option Shape) (y : Tensor) :
  process_x x x_event_shape = Ok y ->
  dtype y = float32
  /\ 2 <= ndim y
  /\ (forall es, x_event_shape = Some es -> tl (shape y) = es)
  /\ (exists x0, as_tensor x (Some float32) = Ok x0
                 /\ data y = data x0 /\ device y = device x0).
Proof.
  intros H. unfold process_x in H.
  apply Result_bind_Ok in H. destruct H as (x0 & Hx0 & H).
  destruct (atleast_2d_keeps x0) as (Hd & Hdev & Hdata & Hn).
  assert (dtype x0 = float32) as Hd0.
  { destruct x; cbn in Hx0; try discriminate;
      injection Hx0 as <-; apply dtype_to_dtype'. }
  destruct x_event_shape as [es |].
  - destruct (rank es >? rank (shape (atleast_2d x0))); [discriminate |].
    apply Result_bind_Ok in H. destruct H as (u & Hassert & H).
    apply py_assert_Ok in Hassert.
    injection H as <-.
    destruct (rank es =? rank (shape (atleast_2d x0))) eqn:Eq.
    + repeat split.
      * cbn. congruence.
      * unfold ndim in *. cbn [shape unsqueeze0].
        unfold rank in *. cbn [List.length]. lia.
      * intros es' [= <-].
        unfold Shape_eqb in Hassert.
        destruct (list_eq_dec Z.eq_dec _ es); [assumption | discriminate].
      * exists x0. repeat split; cbn; assumption.
    + repeat split.
      * congruence.
      * lia.
      * intros es' [= <-].
        unfold Shape_eqb in Hassert.
        destruct (list_eq_dec Z.eq_dec _ es); [assumption | discriminate].
      * exists x0. repeat split; assumption.
  - injection H as <-. repeat split.
    + congruence.
    + lia.
    + discriminate.
    + exists x0. repeat split; assumption.
Qed.

Lemma numel_singleton (n : Z) : numel [n] = n.
Proof. unfold numel; cbn [fold_right]; lia. Qed.

(** X2: an observation without a batch dimension, whose shape is the event
    shape (of rank at least 1), comes back with a leading batch dimension
    of size 1 and is otherwise the input converted to [float32]. *)
Theorem process_x_adds_batch_dimension (x : Tensor) (es : Shape) :
  es <> [] ->
  shape x = es ->
  process_x (VTensor x) (Some es) = Ok (unsqueeze0 (to_dtype x float32)).
Proof.
  intros Hne Hs. unfold process_x. cbn [as_tensor bind Monad_Result].
  set (x0 := to_dtype x float32).
  assert (shape x0 = es) as Hs0 by (subst x0; rewrite shape_to_dtype; exact Hs).
  destruct es as [| n [| m rest]]; [congruence | |].
  - (* a vector: promoted by atleast_2d *)
    assert (atleast_2d x0 = unsqueeze0 x0) as ->.
    { unfold atleast_2d, unsqueeze0, ndim. rewrite Hs0.
      cbn [rank List.length Z.of_nat]. rewrite numel_singleton. reflexivity. }
    cbv zeta. cbn [shape unsqueeze0]. rewrite Hs0.
    replace (rank [n] >? rank [1; n]) with false by reflexivity.
    replace (rank [n] =? rank [1; n]) with false by reflexivity.
    cbn [shape unsqueeze0 tl]. rewrite Hs0, Shape_eqb_refl. reflexivity.
  - (* more than one dimension: the batch dimension is added by unsqueeze *)
    assert (atleast_2d x0 = x0) as ->.
    { unfold atleast_2d, ndim. rewrite Hs0.
      replace (rank (n :: m :: rest) <? 2) with false; [reflexivity |].
      symmetry; apply Z.ltb_ge. rewrite !rank_cons.
      pose proof (rank_nonneg rest). lia. }
    rewrite Hs0.
    replace (rank (n :: m :: rest) >? rank (n :: m :: rest)) with false
      by (symmetry; rewrite Z.gtb_ltb; apply Z.ltb_irrefl).
    rewrite Z.eqb_refl. cbn [shape unsqueeze0 tl]. rewrite Hs0.
    rewrite Shape_eqb_refl. reflexivity.
Qed.

(** X3: an observation that already has a batch dimension is only
    converted to [float32], whatever the size [n] of that dimension: the
    number of trials is not checked against the event shape. *)
Theorem process_x_keeps_batched (x : Tensor) (n : Z) (es : Shape) :
  es <> [] ->
  shape x = n :: es ->
  process_x (VTensor x) (Some es) = Ok (to_dtype x float32).
Proof.
  intros Hne Hs. unfold process_x. cbn [as_tensor bind Monad_Result].
  set (x0 := to_dtype x float32).
  assert (shape x0 = n :: es) as Hs0
    by (subst x0; rewrite shape_to_dtype; exact Hs).
  assert (1 <= rank es) as Hr.
  { destruct es; [congruence |]. rewrite rank_cons.
    pose proof (rank_nonneg es). lia. }
  assert (atleast_2d x0 = x0) as ->.
  { unfold atleast_2d, ndim. rewrite Hs0, rank_cons.
    replace (1 + rank es <? 2) with false; [reflexivity |].
    symmetry; apply Z.ltb_ge. lia. }
  rewrite Hs0, rank_cons.
  replace (rank es >? 1 + rank es) with false
    by (symmetry; rewrite Z.gtb_ltb; apply Z.ltb_ge; lia).
  replace (rank es =? 1 + rank es) with false
    by (symmetry; apply Z.eqb_neq; lia).
  rewrite Hs0. cbn [tl]. rewrite Shape_eqb_refl. reflexivity.
Qed.

(** X4: an event shape with more dimensions than the observation has
    after the promotion to two dimensions is refused with the [ValueError]
    that names both shapes. *)
Theorem process_x_event_shape_too_long
  (x : PyVal) (x0 : Tensor) (es : Shape) :
  as_tensor x (Some float32) = Ok x0 ->
  Z.max 2 (ndim x0) < rank es ->
  process_x x (Some es)
  = Raise (mkExc ValueError
             (msg_x_event_shape (shape (atleast_2d x0)) es) None).
Proof.
  intros Hx0 Hlt. unfold process_x. rewrite Hx0. cbn [bind Monad_Result].
  destruct (atleast_2d_keeps x0) as (_ & _ & _ & Hn). unfold ndim in Hn at 1.
  replace (rank es >? rank (shape (atleast_2d x0))) with true; [reflexivity |].
  symmetry; rewrite Z.gtb_ltb; apply Z.ltb_lt. lia.
Qed.

Lemma process_x_empty_event_shape_not_Ok (x : PyVal) (y : Tensor) :
  process_x x (Some []) <> Ok y.
Proof.
  intros H. unfold process_x in H.
  apply Result_bind_Ok in H. destruct H as (x0 & Hx0 & H).
  destruct (atleast_2d_keeps x0) as (_ & _ & _ & Hn). unfold ndim in Hn at 1.
  set (x1 := atleast_2d x0) in *.
  assert (2 <= rank (shape x1)) as Hr by lia.
  replace (rank [] >? rank (shape x1)) with false in H
    by (symmetry; rewrite Z.gtb_ltb; apply Z.ltb_ge; unfold rank at 1; cbn; lia).
  replace (rank [] =? rank (shape x1)) with false in H
    by (symmetry; apply Z.eqb_neq; unfold rank at 1; cbn; lia).
  apply Result_bind_Ok in H. destruct H as (u & Hassert & _).
  apply py_assert_Ok, Shape_eqb_eq in Hassert.
  destruct (shape x1) as [| a [| b r]]; unfold rank in Hr; cbn in *;
    try lia; discriminate.
Qed.

(** X5: with the empty event shape [torch.Size([])] [process_x] always
    raises: the observation has at least two dimensions by then, so its
    dimensions after the first cannot be the empty shape. *)
Theorem process_x_empty_event_shape_fails (x : PyVal) :
  exists e, process_x x (Some []) = Raise e.
Proof.
  destruct (process_x x (Some [])) as [y | e] eqn:E; [| eauto].
  exfalso. exact (process_x_empty_event_shape_not_Ok x y E).
Qed.

(** *** The checks of a prior *)

(** X6: [check_prior_batch_behavior] passes exactly when a batch of one
    sample can be drawn and evaluated, the sample has at least two
    dimensions with a leading dimension 1, and [len] of the log-densities
    is 1. *)
Theorem check_prior_batch_behavior_passes_iff (prior : PriorLike) :
  check_prior_batch_behavior prior = Ok tt
  <-> exists (theta log_probs : PyVal) (theta_shape : Shape),
        call_sample prior [1] = Ok theta
        /\ call_log_prob prior theta = Ok log_probs
        /\ py_shape theta = Ok theta_shape
        /\ 2 <= rank theta_shape
        /\ hd 0 theta_shape = 1
        /\ py_len log_probs = Ok 1.
Proof.
  unfold check_prior_batch_behavior. cbv zeta. split.
  - intros H.
    apply Result_bind_Ok in H. destruct H as (theta & Hs & H).
    apply Result_bind_Ok in H. destruct H as (lp & Hl & H).
    apply Result_bind_Ok in H. destruct H as (sh & Hsh & H).
    apply Result_bind_Ok in H. destruct H as (u1 & Hrank & H).
    apply py_assert_Ok in Hrank. apply Z.geb_le in Hrank.
    apply Result_bind_Ok in H. destruct H as ([d rest] & Hun & H).
    apply Result_bind_Ok in H. destruct H as (nlp & Hlen & H).
    apply Result_bind_Ok in H. destruct H as (u2 & Hd & H).
    apply py_assert_Ok, Z.eqb_eq in Hd. apply py_assert_Ok, Z.eqb_eq in H.
    subst d nlp.
    exists theta, lp, sh. repeat split; try assumption.
    destruct sh as [| d r]; cbn in Hun; [discriminate |].
    injection Hun as -> _. reflexivity.
  - intros (theta & lp & sh & Hs & Hl & Hsh & Hrank & Hhd & Hlen).
    rewrite Hs. cbn [bind Monad_Result]. rewrite Hl. cbn [bind Monad_Result].
    rewrite Hsh. cbn [bind Monad_Result].
    apply Z.geb_le in Hrank. rewrite Hrank. cbn [py_assert bind Monad_Result].
    destruct sh as [| d r]; [discriminate Hrank |].
    cbn [hd] in Hhd. subst d. cbn [unpack_leading bind Monad_Result].
    rewrite Hlen. reflexivity.
Qed.

(** A wrapper that [maybe_wrap_prior_as_pytorch] returns was built by the
    constructor from the prior and the size of one sample, and the state has
    gained the warnings of that constructor and nothing else. *)
Lemma maybe_wrap_prior_as_pytorch_Ok
  (prior : PriorLike) (kwargs : option Kwargs) (st st' : State)
  (d : Dist) (b : bool) :
  maybe_wrap_prior_as_pytorch prior kwargs st = (Ok (d, b), st') ->
  exists (w : DistBehaviour) (es : Shape) (ws : list string),
    d = Distribution w
    /\ CustomPriorWrapper prior es kwargs = (ws, Ok w)
    /\ st' = mkState (validate_args st) (rev ws ++ warnings st).
Proof.
  unfold maybe_wrap_prior_as_pytorch. intros H.
  apply M_bind_Ok in H. destruct H as (theta & st1 & H1 & H).
  apply lift_Ok in H1. destruct H1 as [_ ->].
  apply M_bind_Ok in H. destruct H as (lp & st2 & H2 & H).
  apply lift_Ok in H2. destruct H2 as [_ ->].
  destruct theta as [t | t | n], lp as [l | l | m]; try discriminate H.
  - unfold warning_call in H. cbn [bind Monad_M ret] in H.
    destruct (CustomPriorWrapper prior [numel (shape t)] kwargs)
      as [ws [w | e]] eqn:Hw; cbn [fst snd] in H; [| discriminate H].
    injection H as <- <- <-. exists w, [numel (shape t)], ws. auto.
  - cbv zeta in H. unfold warning_call in H. cbn [bind Monad_M ret] in H.
    destruct (CustomPriorWrapper prior [numel (shape t)] kwargs)
      as [ws [w | e]] eqn:Hw; cbn [fst snd] in H; [| discriminate H].
    injection H as <- <- <-. exists w, [numel (shape t)], ws. auto.
Qed.

(** X7: [maybe_wrap_prior_as_pytorch] wraps a prior only when the sample and
    the log-densities are of the same kind: both tensors (the prior is not
    a numpy prior) or both arrays (it is); the event shape handed to the
    wrapper is the number of elements of one sample, and what is warned is
    what the constructor of the wrapper warns.  A prior that mixes a tensor
    and an array, either way round, is refused with the [TypeError] that
    names the type of the sample, before any wrapper is made. *)
Theorem maybe_wrap_prior_same_kind
  (prior : PriorLike) (kwargs : option Kwargs) (theta log_probs : PyVal)
  (st : State) :
  call_sample prior [1] = Ok theta ->
  call_log_prob prior theta = Ok log_probs ->
  (forall (d : Dist) (is_prior_numpy : bool) (st' : State),
      maybe_wrap_prior_as_pytorch prior kwargs st
      = (Ok (d, is_prior_numpy), st') ->
      exists (w : DistBehaviour) (t l : Tensor) (ws : list string),
        d = Distribution w
        /\ CustomPriorWrapper prior [numel (shape t)] kwargs = (ws, Ok w)
        /\ st' = mkState (validate_args st) (rev ws ++ warnings st)
        /\ (if is_prior_numpy
            then theta = VNdarray t /\ log_probs = VNdarray l
            else theta = VTensor t /\ log_probs = VTensor l))
  /\ (is_Tensor theta = true -> is_Tensor log_probs = false ->
      maybe_wrap_prior_as_pytorch prior kwargs st
      = (Raise (mkExc TypeError
                  (msg_prior_return "<class 'torch.Tensor'>") None), st))
  /\ (is_ndarray theta = true -> is_ndarray log_probs = false ->
      maybe_wrap_prior_as_pytorch prior kwargs st
      = (Raise (mkExc TypeError
                  (msg_prior_return "<class 'numpy.ndarray'>") None), st)).
Proof.
  intros Hs Hl. unfold maybe_wrap_prior_as_pytorch.
  cbn [bind Monad_M lift]. rewrite Hs, Hl.
  split; [| split].
  - intros d b st' H.
    destruct theta as [t | t | n], log_probs as [l | l | m];
      try discriminate H.
    + unfold warning_call in H. cbn [bind Monad_M ret] in H.
      destruct (CustomPriorWrapper prior [numel (shape t)] kwargs)
        as [ws [w | e]] eqn:Hw; cbn [fst snd] in H; [| discriminate H].
      injection H as <- <- <-. exists w, t, l, ws. auto.
    + cbv zeta in H. unfold warning_call in H. cbn [bind Monad_M ret] in H.
      destruct (CustomPriorWrapper prior [numel (shape t)] kwargs)
        as [ws [w | e]] eqn:Hw; cbn [fst snd] in H; [| discriminate H].
      injection H as <- <- <-. exists w, t, l, ws. auto.
  - intros Ht Hnl.
    destruct theta as [t | t | n], log_probs as [l | l | m];
      try discriminate; reflexivity.
  - intros Ht Hnl.
    destruct theta as [t | t | n], log_probs as [l | l | m];
      try discriminate; reflexivity.
Qed.

(** *** process_pytorch_prior and process_prior *)

Lemma check_prior_return_type_Ok (d : Dist) (rt : DType) (u : unit) :
  check_prior_return_type d rt = Ok u ->
  exists s, sample d [] = Ok s /\ dtype s = rt.
Proof.
  unfold check_prior_return_type. intros H.
  apply Result_bind_Ok in H. destruct H as (s & Hs & H).
  apply py_assert_Ok, DType_eqb_eq in H. eauto.
Qed.

Lemma process_pytorch_prior_post
  (prior d : Dist) (st st' : State) (n : Z) (b : bool) :
  process_pytorch_prior prior st = (Ok (d, n, b), st') ->
  b = false
  /\ validate_args st' = false
  /\ numel (batch_shape d) <= 1
  /\ exists s, sample d [] = Ok s /\ dtype s = float32 /\ n = numel (shape s).
Proof.
  intros H. unfold process_pytorch_prior in H.
  apply M_bind_Ok in H. destruct H as (u0 & st0 & Hset & H).
  assert (validate_args st0 = false) as Hva0
    by (unfold set_default_validate_args in Hset;
        injection Hset as _ <-; reflexivity).
  clear Hset.
  apply M_bind_Ok in H. destruct H as (s0 & st0' & Hs0 & H).
  apply lift_Ok in Hs0. destruct Hs0 as [Hs0 ->].
  apply M_bind_Ok in H. destruct H as (p1 & st1 & Hblock & H).
  assert (validate_args st1 = false) as Hva1.
  { destruct (ndim s0 =? 0); [discriminate Hblock |].
    destruct prior as [low high | low high | p rt | p | w];
      try (cbn in Hblock; injection Hblock as _ <-; exact Hva0).
    destruct (numel (batch_shape (Uniform low high)) =? 1);
      [| cbn in Hblock; injection Hblock as _ <-; exact Hva0].
    apply M_bind_Ok in Hblock. destruct Hblock as (box & st2 & Hbox & Hblock).
    apply lift_Ok in Hbox. destruct Hbox as [_ ->].
    cbn in Hblock. injection Hblock as _ <-. exact Hva0. }
  clear Hblock Hva0 Hs0 s0 st0 u0.
  apply M_bind_Ok in H. destruct H as (u1 & st2 & Hcpb & H).
  apply lift_Ok in Hcpb. destruct Hcpb as [_ ->].
  apply M_bind_Ok in H. destruct H as (u2 & st2 & Hcbd & H).
  apply lift_Ok in Hcbd. destruct Hcbd as [Hcbd ->].
  apply M_bind_Ok in H. destruct H as (s1 & st2 & Hs1 & H).
  apply lift_Ok in Hs1. destruct Hs1 as [_ ->].
  cbv zeta in H.
  set (p2 := if negb (DType_eqb (dtype s1) float32)
             then PytorchReturnTypeWrapper p1 float32 else p1) in *.
  apply M_bind_Ok in H. destruct H as (u3 & st2 & Hcrt & H).
  apply lift_Ok in Hcrt. destruct Hcrt as [Hcrt ->].
  apply M_bind_Ok in H. destruct H as (s10 & st2 & Hs10 & H).
  apply lift_Ok in Hs10. destruct Hs10 as [_ ->].
  apply M_bind_Ok in H. destruct H as (lp & st2 & Hlp & H).
  apply lift_Ok in Hlp. destruct Hlp as [_ ->].
  set (p3 := if Shape_eqb (shape lp) [10; 1]
             then OneDimPriorWrapper p2 else p2) in *.
  apply M_bind_Ok in H. destruct H as (s & st2 & Hs & H).
  apply lift_Ok in Hs. destruct Hs as [Hs ->].
  cbn in H. injection H as <- <- <- <-.
  assert (batch_shape p3 = batch_shape p1) as Hbs.
  { subst p3 p2.
    destruct (Shape_eqb (shape lp) [10; 1]),
      (negb (DType_eqb (dtype s1) float32)); reflexivity. }
  assert (sample p3 [] = sample p2 []) as Hsame
    by (subst p3; destruct (Shape_eqb (shape lp) [10; 1]); reflexivity).
  repeat split.
  - exact Hva1.
  - rewrite Hbs. unfold check_prior_batch_dims in Hcbd.
    destruct (numel (batch_shape p1) >? 1) eqn:E; [discriminate |].
    rewrite Z.gtb_ltb in E. apply Z.ltb_ge in E. exact E.
  - exists s. split; [exact Hs | split; [| reflexivity]].
    apply check_prior_return_type_Ok in Hcrt.
    destruct Hcrt as (s' & Hs' & Hd). rewrite Hsame in Hs. congruence.
Qed.

Lemma snd_bind_keeps {A B : Type} (c : M A) (k : A -> M B) (st : State) :
  (forall a st1, snd (k a st1) = st1) ->
  snd (bind c k st) = snd (c st).
Proof.
  intros Hk. cbn [bind Monad_M].
  destruct (c st) as [[a | e] st1]; cbn [snd]; auto.
Qed.

Lemma snd_bind {A B : Type} (c : M A) (k : A -> M B) (st : State) :
  snd (bind c k st)
  = match c st with
    | (Ok a, st1) => snd (k a st1)
    | (Raise _, st1) => st1
    end.
Proof.
  cbn [bind Monad_M]. destruct (c st) as [[a | e] st1]; reflexivity.
Qed.

Ltac keeps_state :=
  intros; cbv zeta;
  first [ reflexivity
        | rewrite snd_bind_keeps; [reflexivity | keeps_state] ].

(** The state [process_pytorch_prior] leaves behind, returning or
    raising. *)
Lemma process_pytorch_prior_state (prior : Dist) (st : State) :
  let st' := snd (process_pytorch_prior prior st) in
  validate_args st' = false
  /\ (warnings st' = warnings st
      \/ ((exists low high, prior = Uniform low high)
          /\ warnings st' = msg_cast_box_uniform :: warnings st)).
Proof.
  cbv zeta. unfold process_pytorch_prior.
  rewrite snd_bind.
  change (set_default_validate_args false st)
    with (@Ok unit tt, mkState false (warnings st)).
  cbv beta iota.
  set (st0 := mkState false (warnings st)).
  rewrite snd_bind.
  change (lift (sample prior []) st0) with (sample prior [], st0).
  cbv beta iota.
  destruct (sample prior []) as [s0 | e]; [| cbn; auto].
  rewrite snd_bind_keeps by keeps_state.
  destruct (ndim s0 =? 0); [cbn; auto |].
  destruct prior as [low high | low high | p rt | p | w];
    try solve [cbn; auto].
  destruct (numel (batch_shape (Uniform low high)) =? 1); [| cbn; auto].
  cbn [bind Monad_M lift].
  destruct (BoxUniform_init low high) as [box | e]; cbn; [| auto].
  split; [reflexivity | right; split; [eauto | reflexivity]].
Qed.

(** X8: every prior [process_prior] returns meets the requirements of the
    pipeline: a single sample of it is a [float32] tensor, and the parameter
    count returned beside it is the number of elements of that sample.  For
    a distribution or a sequence the prior is moreover flagged as not numpy,
    has batch multiplicity at most 1, and argument validation is off; for a
    custom prior it is a wrapper built by the constructor from that prior,
    the validation switch is untouched, and the warnings added are those
    the constructor emitted, in the order it emitted them. *)
Theorem process_prior_postcondition
  (prior : PriorObj) (kwargs : option Kwargs) (st st' : State)
  (d : Dist) (theta_numel : Z) (prior_returns_numpy : bool) :
  process_prior prior kwargs st
  = (Ok (d, theta_numel, prior_returns_numpy), st') ->
  (exists s, sample d [] = Ok s /\ dtype s = float32
             /\ theta_numel = numel (shape s))
  /\ ((forall c, prior <> PCustom c) ->
      prior_returns_numpy = false
      /\ numel (batch_shape d) <= 1
      /\ validate_args st' = false)
  /\ (forall c, prior = PCustom c ->
      validate_args st' = validate_args st
      /\ exists (w : DistBehaviour) (es : Shape) (ws : list string),
          d = Distribution w
          /\ CustomPriorWrapper c es kwargs = (ws, Ok w)
          /\ warnings st' = rev ws ++ warnings st).
Proof.
  intros H.
  destruct prior as [ps | d0 | | c].
  - cbn [process_prior] in H.
    apply M_bind_Ok in H. destruct H as (u & st1 & _ & H).
    apply M_bind_Ok in H. destruct H as (ds & st2 & _ & H).
    apply M_bind_Ok in H. destruct H as (joint & st3 & _ & H).
    apply process_pytorch_prior_post in H.
    destruct H as (Hb & Hva & Hbs & Hs).
    split; [exact Hs | split; [auto | discriminate]].
  - cbn [process_prior] in H.
    apply process_pytorch_prior_post in H.
    destruct H as (Hb & Hva & Hbs & Hs).
    split; [exact Hs | split; [auto | discriminate]].
  - cbn [process_prior] in H. discriminate H.
  - cbn [process_prior] in H. unfold process_custom_prior in H.
    apply M_bind_Ok in H. destruct H as (u1 & st1 & H1 & H).
    apply lift_Ok in H1. destruct H1 as [_ ->].
    apply M_bind_Ok in H. destruct H as (u2 & st2 & H2 & H).
    apply lift_Ok in H2. destruct H2 as [_ ->].
    apply M_bind_Ok in H. destruct H as ([d1 b1] & st3 & Hwrap & H).
    apply M_bind_Ok in H. destruct H as (u3 & st4 & Hcrt & H).
    apply lift_Ok in Hcrt. destruct Hcrt as [Hcrt ->].
    apply M_bind_Ok in H. destruct H as (s & st5 & Hs & H).
    apply lift_Ok in Hs. destruct Hs as [Hs ->].
    cbv zeta in H. cbn [ret Monad_M] in H.
    injection H as <- <- <- <-.
    apply check_prior_return_type_Ok in Hcrt.
    destruct Hcrt as (s' & Hs' & Hd).
    apply maybe_wrap_prior_as_pytorch_Ok in Hwrap.
    destruct Hwrap as (w & es & ws & -> & Hw & ->).
    split; [| split].
    + exists s. repeat split; congruence.
    + intros Hc. exfalso. apply (Hc c). reflexivity.
    + intros c' Hc'. injection Hc' as <-.
      split; [reflexivity |]. exists w, es, ws. auto.
Qed.

(** X9: [process_pytorch_prior] warns at most once, and only when it casts
    a [Uniform] to a [BoxUniform]; a prior of any other class is processed
    silently.  Whether it returns or raises, argument validation is off
    afterwards. *)
Theorem process_pytorch_prior_warns_only_on_cast (prior : Dist) (st : State) :
  validate_args (snd (process_pytorch_prior prior st)) = false
  /\ (warnings (snd (process_pytorch_prior prior st)) = warnings st
      \/ warnings (snd (process_pytorch_prior prior st))
         = msg_cast_box_uniform :: warnings st)
  /\ ((forall low high, prior <> Uniform low high) ->
      warnings (snd (process_pytorch_prior prior st)) = warnings st).
Proof.
  destruct (process_pytorch_prior_state prior st) as (Hva & Hw).
  split; [exact Hva | split].
  - destruct Hw as [Hw | [_ Hw]]; auto.
  - intros Hnot. destruct Hw as [Hw | [(low & high & ->) _]]; [exact Hw |].
    exfalso. apply (Hnot low high). reflexivity.
Qed.

Lemma broadcast_rev_prefix (l r : list Z) :
  broadcast_rev (l ++ r) l = Some (l ++ r).
Proof.
  induction l as [| x l IH]; cbn [app broadcast_rev].
  - destruct r; reflexivity.
  - rewrite IH, Z.eqb_refl. reflexivity.
Qed.

(** A value whose trailing dimensions are the batch shape broadcasts to its
    own shape. *)
Lemma broadcast_shapes_suffix (p s : Shape) :
  broadcast_shapes (p ++ s) s = Some (p ++ s).
Proof.
  unfold broadcast_shapes.
  rewrite rev_app_distr, broadcast_rev_prefix. cbn [option_map].
  rewrite <- rev_app_distr, rev_involutive. reflexivity.
Qed.

Lemma rank_nonempty (s : Shape) : s <> [] -> 1 <= rank s.
Proof.
  destruct s as [| d r]; [congruence | intros _].
  rewrite rank_cons. pose proof (rank_nonneg r). lia.
Qed.

Lemma uniform_batch_behavior (low high : Tensor) :
  shape low <> [] ->
  check_prior_batch_behavior (dist_as_prior (Uniform low high)) = Ok tt.
Proof.
  intros Hne.
  apply check_prior_batch_behavior_passes_iff.
  exists (VTensor (uniform_sample low high [1])).
  pose proof (broadcast_shapes_suffix [1] (shape low)) as Hb.
  cbn [app] in Hb.
  eexists. exists (1 :: shape low).
  split; [reflexivity |].
  split.
  { unfold call_log_prob, dist_as_prior. cbn [pl_log_prob log_prob].
    unfold uniform_logp, uniform_sample at 1. cbn [shape app].
    rewrite Hb. reflexivity. }
  split; [reflexivity |].
  split; [rewrite rank_cons; pose proof (rank_nonempty _ Hne); lia |].
  split; reflexivity.
Qed.

(** X10: a [Uniform] defined over several parameters, whose batch
    multiplicity exceeds 1, is rejected by [process_prior] with the
    batch-shape [ValueError]; it is not cast to a [BoxUniform] and no warning
    is emitted. *)
Theorem process_prior_batched_uniform_rejected
  (low high : Tensor) (kwargs : option Kwargs) (st : State) :
  1 < numel (batch_shape (Uniform low high)) ->
  process_prior (PDistribution (Uniform low high)) kwargs st
  = (Raise (mkExc ValueError msg_prior_batch_dims None),
     mkState false (warnings st)).
Proof.
  intros Hn. cbn [batch_shape] in Hn.
  assert (shape low <> []) as Hne
    by (intros E; rewrite E in Hn; cbn in Hn; lia).
  cbn [process_prior]. unfold process_pytorch_prior.
  cbn [bind Monad_M set_default_validate_args lift sample batch_shape].
  replace (ndim (uniform_sample low high []) =? 0) with false.
  2:{ symmetry; apply Z.eqb_neq. unfold ndim, uniform_sample. cbn [shape app].
      pose proof (rank_nonempty _ Hne). lia. }
  replace (numel (shape low) =? 1) with false
    by (symmetry; apply Z.eqb_neq; lia).
  cbn [ret Monad_M].
  rewrite (uniform_batch_behavior low high Hne).
  unfold check_prior_batch_dims. cbn [batch_shape].
  replace (numel (shape low) >? 1) with true
    by (symmetry; rewrite Z.gtb_ltb; apply Z.ltb_lt; lia).
  reflexivity.
Qed.

Lemma box_uniform_batch_behavior (low high : Tensor) (n : Z) :
  shape low = [n] ->
  check_prior_batch_behavior (dist_as_prior (BoxUniform low high)) = Ok tt.
Proof.
  intros Hs.
  apply check_prior_batch_behavior_passes_iff.
  exists (VTensor (uniform_sample low high [1])).
  pose proof (broadcast_shapes_suffix [1] (shape low)) as Hb.
  rewrite Hs in Hb. cbn [app] in Hb.
  eexists. exists [1; n].
  split; [reflexivity |].
  split.
  { unfold call_log_prob, dist_as_prior. cbn [pl_log_prob log_prob].
    unfold box_uniform_log_prob, uniform_logp, uniform_sample at 1.
    cbn [shape app]. rewrite Hs. cbn [app]. rewrite Hb. reflexivity. }
  split; [unfold uniform_sample; cbn [py_shape shape]; rewrite Hs; reflexivity |].
  split; [unfold rank; cbn; lia |].
  split; reflexivity.
Qed.

(** X11: a [BoxUniform] over [n] parameters is accepted as it is when its
    samples are [float32], and inside a [PytorchReturnTypeWrapper] that
    coerces them to [float32] otherwise; the parameter count returned is
    [n], the prior is never put in a [OneDimPriorWrapper], and no warning is
    emitted. *)
Theorem process_prior_box_uniform
  (low high : Tensor) (n : Z) (kwargs : option Kwargs) (st : State) :
  shape low = [n] ->
  process_prior (PDistribution (BoxUniform low high)) kwargs st
  = (Ok (if DType_eqb (promote_types (dtype low) (dtype high)) float32
         then BoxUniform low high
         else PytorchReturnTypeWrapper (BoxUniform low high) float32,
         n, false),
     mkState false (warnings st)).
Proof.
  intros Hs.
  destruct low as [sl dl devl datal], high as [sh dh devh datah].
  cbn [shape] in Hs. subst sl.
  cbn [process_prior dtype].
  destruct (DType_eqb (promote_types dl dh) float32) eqn:Ed;
    destruct dl, dh; try discriminate Ed; clear Ed;
    unfold process_pytorch_prior;
    cbn -[Z.mul uniform_logp];
    unfold uniform_logp, uniform_sample, broadcast_shapes;
    cbn -[Z.mul]; rewrite ?Z.eqb_refl; cbn -[Z.mul];
    unfold uniform_logp, uniform_sample, broadcast_shapes;
    cbn -[Z.mul]; rewrite ?Z.eqb_refl; cbn -[Z.mul];
    rewrite ?Z.mul_1_r; reflexivity.
Qed.

(** *** Warnings *)

Lemma grows_bind {A B : Type} (c : M A) (k : A -> M B) :
  (forall st, exists l, warnings (snd (c st)) = l ++ warnings st) ->
  (forall a st, exists l, warnings (snd (k a st)) = l ++ warnings st) ->
  forall st, exists l, warnings (snd (bind c k st)) = l ++ warnings st.
Proof.
  intros Hc Hk st. rewrite snd_bind.
  destruct (Hc st) as (l1 & H1).
  destruct (c st) as [[a | e] st1]; cbn [snd] in *.
  - destruct (Hk a st1) as (l2 & H2). exists (l2 ++ l1).
    rewrite H2, H1, app_assoc. reflexivity.
  - exists l1. exact H1.
Qed.

Lemma grows_lift {A : Type} (r : Result A) (st : State) :
  exists l, warnings (snd (lift r st)) = l ++ warnings st.
Proof. exists []. reflexivity. Qed.

Lemma grows_pytorch (prior : Dist) (st : State) :
  exists l, warnings (snd (process_pytorch_prior prior st)) = l ++ warnings st.
Proof.
  destruct (process_pytorch_prior_state prior st) as (_ & [H | [_ H]]).
  - exists []. exact H.
  - exists [msg_cast_box_uniform]. exact H.
Qed.

Lemma grows_warning_call {A : Type} (c : list string * Result A) (st : State) :
  exists l, warnings (snd (warning_call c st)) = l ++ warnings st.
Proof. exists (rev (fst c)). reflexivity. Qed.

Lemma grows_maybe_wrap (prior : PriorLike) (kwargs : option Kwargs) (st : State) :
  exists l,
    warnings (snd (maybe_wrap_prior_as_pytorch prior kwargs st))
    = l ++ warnings st.
Proof.
  revert st. unfold maybe_wrap_prior_as_pytorch.
  apply grows_bind; [intros st; apply grows_lift |].
  intros theta. apply grows_bind; [intros st; apply grows_lift |].
  intros lp.
  destruct theta as [t | t | n], lp as [l | l | m];
    try (intros st; apply grows_lift);
    (apply grows_bind; [intros st; apply grows_warning_call |];
     intros w st; exists []; reflexivity).
Qed.

Lemma grows_custom (prior : PriorLike) (kwargs : option Kwargs) (st : State) :
  exists l,
    warnings (snd (process_custom_prior prior kwargs st)) = l ++ warnings st.
Proof.
  revert st. unfold process_custom_prior.
  apply grows_bind; [intros st; apply grows_lift |].
  intros _. apply grows_bind; [intros st; apply grows_lift |].
  intros _. apply grows_bind; [intros st; apply grows_maybe_wrap |].
  intros [d b]. apply grows_bind; [intros st; apply grows_lift |].
  intros _. apply grows_bind; [intros st; apply grows_lift |].
  intros s st. exists []. reflexivity.
Qed.

(** Warnings are only ever added by [process_prior]. *)
Lemma process_prior_grows :
  forall (prior : PriorObj) (kwargs : option Kwargs) (st : State),
  exists l, warnings (snd (process_prior prior kwargs st)) = l ++ warnings st.
Proof.
  fix IH 1. intros [ps | d | | c] kwargs.
  - cbn [process_prior].
    apply grows_bind; [intros st; exists [msg_sequence_prior
                                            (Z.of_nat (List.length ps))];
                       reflexivity |].
    intros _. apply grows_bind.
    + induction ps as [| p rest IHps].
      * intros st; exists []; reflexivity.
      * apply grows_bind; [apply IH |].
        intros [[d0 n0] b0]. apply grows_bind; [exact IHps |].
        intros ds st; exists []; reflexivity.
    + intros ds. apply grows_bind; [intros st; apply grows_lift |].
      intros joint st. apply grows_pytorch.
  - intros st. cbn [process_prior]. apply grows_pytorch.
  - intros st. exists []. reflexivity.
  - intros st. cbn [process_prior]. apply grows_custom.
Qed.

(** X12: given a sequence of priors, [process_prior] first warns that the
    priors are taken as independent, naming their number; the warning is
    there whether the call then returns or raises, and whatever is warned
    later comes after it. *)
Theorem process_prior_sequence_warns_first
  (priors : list PriorObj) (kwargs : option Kwargs) (st : State) :
  exists later,
    warnings (snd (process_prior (PSequence priors) kwargs st))
    = later ++ msg_sequence_prior (Z.of_nat (List.length priors))
               :: warnings st.
Proof.
  pose (st1 := mkState (validate_args st)
                 (msg_sequence_prior (Z.of_nat (List.length priors))
                  :: warnings st)).
  assert (forall (c : M (Dist * Z * bool)),
             (forall s, exists l, warnings (snd (c s)) = l ++ warnings s) ->
             exists l, warnings (snd (c st1)) = l ++ warnings st1) as Hgo
    by (intros c Hc; apply Hc).
  cbn [process_prior]. rewrite snd_bind.
  change (warn (msg_sequence_prior (Z.of_nat (List.length priors))) st)
    with (@Ok unit tt, st1).
  cbv beta iota.
  apply Hgo. apply grows_bind.
  - clear Hgo st1. induction priors as [| p rest IHps].
    + intros s; exists []; reflexivity.
    + apply grows_bind; [apply process_prior_grows |].
      intros [[d0 n0] b0]. apply grows_bind; [exact IHps |].
      intros ds s; exists []; reflexivity.
  - intros ds. apply grows_bind; [intros s; apply grows_lift |].
    intros joint s. apply grows_pytorch.
Qed.

(** X13: a custom prior that lacks [sample], or whose [sample] works but
    that lacks [log_prob], makes [process_prior] raise an [AttributeError]
    that names the missing method and chains the original; nothing is
    warned and the validation switch is not touched. *)
Theorem process_prior_custom_missing_method
  (p : PriorLike) (kwargs : option Kwargs) (st : State) :
  (pl_sample p = None ->
   process_prior (PCustom p) kwargs st
   = (Raise (mkExc AttributeError msg_needs_sample
               (Some (mkExc AttributeError
                        "object has no attribute 'sample'" None))), st))
  /\ (forall theta,
        call_sample p [2] = Ok theta ->
        pl_log_prob p = None ->
        process_prior (PCustom p) kwargs st
        = (Raise (mkExc AttributeError msg_needs_log_prob
                    (Some (mkExc AttributeError
                             "object has no attribute 'log_prob'" None))),
           st)).
Proof.
  split.
  - intros Hnone. cbn [process_prior]. unfold lift, process_custom_prior.
    unfold check_prior_attributes, call_sample. rewrite Hnone. reflexivity.
  - intros theta Hs Hnone. cbn [process_prior].
    unfold lift, process_custom_prior, check_prior_attributes.
    rewrite Hs. unfold call_log_prob. rewrite Hnone. reflexivity.
Qed.

(** X14: [prepare_for_sbi] always emits its deprecation warning, before
    anything else it warns and whether it then returns or raises; when it
    returns, the simulator passed was callable and the simulator and prior
    returned have passed [check_sbi_inputs] together. *)
Theorem prepare_for_sbi_warns_and_checks
  (simulator : UserSimulator) (prior : PriorObj) (st : State) :
  (exists later,
      warnings (snd (prepare_for_sbi simulator prior st))
      = later ++ msg_prepare_deprecated :: warnings st)
  /\ (forall (s : Simulator) (d : Dist) (st' : State),
        prepare_for_sbi simulator prior st = (Ok (s, d), st') ->
        check_sbi_inputs s d = Ok tt
        /\ (exists f, simulator = Callable f)
        /\ exists (n : Z) (b : bool),
             process_prior prior None
               (mkState (validate_args st)
                  (msg_prepare_deprecated :: warnings st))
             = (Ok (d, n, b), st')
             /\ process_simulator simulator d b = Ok s).
Proof.
  split.
  - pose (st1 := mkState (validate_args st)
                   (msg_prepare_deprecated :: warnings st)).
    assert (forall (c : M (Simulator * Dist)),
               (forall s, exists l, warnings (snd (c s)) = l ++ warnings s) ->
               exists l, warnings (snd (c st1)) = l ++ warnings st1) as Hgo
      by (intros c Hc; apply Hc).
    unfold prepare_for_sbi. rewrite snd_bind.
    change (warn msg_prepare_deprecated st) with (@Ok unit tt, st1).
    cbv beta iota.
    apply Hgo. apply grows_bind; [apply process_prior_grows |].
    intros [[d n] b]. apply grows_bind; [intros s; apply grows_lift |].
    intros sim. apply grows_bind; [intros s; apply grows_lift |].
    intros u s; exists []; reflexivity.
  - intros s d st' H. unfold prepare_for_sbi in H.
    apply M_bind_Ok in H. destruct H as (u & st1 & Hwarn & H).
    unfold warn in Hwarn. injection Hwarn as _ <-.
    apply M_bind_Ok in H. destruct H as ([[d1 n1] b1] & st2 & Hprior & H).
    apply M_bind_Ok in H. destruct H as (s1 & st3 & Hsim & H).
    apply lift_Ok in Hsim. destruct Hsim as [Hsim ->].
    apply M_bind_Ok in H. destruct H as (u2 & st3 & Hcheck & H).
    apply lift_Ok in Hcheck. destruct Hcheck as [Hcheck ->].
    cbn in H. injection H as <- <- <-.
    destruct u2. split; [exact Hcheck | split].
    + destruct simulator as [f | nm]; [eauto | discriminate Hsim].
    + exists n1, b1. auto.
Qed.

(** *** Simulators *)

(** X15: a simulator that, given the two parameter vectors of the probe,
    returns an output of rank above 1 with leading dimension 2 is returned
    by [ensure_batched_simulator] unchanged.  The function itself never
    raises an error that [except Exception] catches: the only errors that
    get through are those of the probe that it does not catch. *)
Theorem ensure_batched_simulator_batched_unchanged
  (simulator : Simulator) (prior : Dist) :
  (forall (theta : Tensor) (out : PyVal) (output_shape : Shape),
      sample prior [2] = Ok theta ->
      simulator (VTensor theta) = Ok out ->
      py_shape out = Ok output_shape ->
      1 < rank output_shape ->
      hd 0 output_shape = 2 ->
      ensure_batched_simulator simulator prior = Ok simulator)
  /\ (forall e,
        ensure_batched_simulator simulator prior = Raise e ->
        caught_by_Exception e = false
        /\ batch_probe simulator prior = Raise e).
Proof.
  split.
  - intros theta out sh Hs Hout Hsh Hr Hhd.
    unfold ensure_batched_simulator, batch_probe. cbv zeta.
    rewrite Hs. cbn [bind Monad_Result]. rewrite Hout. cbn [bind Monad_Result].
    rewrite Hsh. cbn [bind Monad_Result].
    replace (rank sh >? 1) with true
      by (symmetry; rewrite Z.gtb_ltb; apply Z.ltb_lt; exact Hr).
    rewrite Hhd. reflexivity.
  - intros e H. unfold ensure_batched_simulator in H.
    destruct (batch_probe simulator prior) as [u | e0]; [discriminate |].
    destruct (caught_by_Exception e0) eqn:E; [discriminate |].
    injection H as <-. auto.
Qed.

Lemma map_result_length {A B : Type} (f : A -> Result B)
  (xs : list A) (ys : list B) :
  map_result f xs = Ok ys -> List.length ys = List.length xs.
Proof.
  revert ys; induction xs as [| x r IH]; intros ys H;
    cbn [map_result] in H.
  - injection H as <-. reflexivity.
  - apply Result_bind_Ok in H. destruct H as (y & _ & H).
    apply Result_bind_Ok in H. destruct H as (ys' & Hr & H).
    injection H as <-. cbn [List.length]. rewrite (IH ys' Hr). reflexivity.
Qed.

Lemma map_result_Forall {A B : Type} (f : A -> Result B) (P : B -> Prop)
  (xs : list A) (ys : list B) :
  (forall x y, f x = Ok y -> P y) ->
  map_result f xs = Ok ys -> Forall P ys.
Proof.
  intros Hf. revert ys; induction xs as [| x r IH]; intros ys H;
    cbn [map_result] in H.
  - injection H as <-. constructor.
  - apply Result_bind_Ok in H. destruct H as (y & Hy & H).
    apply Result_bind_Ok in H. destruct H as (ys' & Hr & H).
    injection H as <-. constructor; eauto.
Qed.

Lemma expect_tensors_Ok (xs : list PyVal) (ts : list Tensor) :
  expect_tensors xs = Ok ts -> xs = map VTensor ts.
Proof.
  revert ts; induction xs as [| x r IH]; intros ts H;
    cbn [expect_tensors] in H.
  - injection H as <-. reflexivity.
  - destruct x as [t | a | n]; try discriminate H.
    apply Result_bind_Ok in H. destruct H as (ts' & Hr & H).
    injection H as <-. cbn [map]. rewrite (IH ts' Hr). reflexivity.
Qed.

(** What [torch.stack] returns: one row for each element. *)
Lemma stack_Ok (xs : list PyVal) (t : Tensor) :
  stack xs = Ok t ->
  exists (t0 : Tensor) (r : list Tensor),
    xs = map VTensor (t0 :: r)
    /\ shape t = Z.of_nat (List.length xs) :: shape t0
    /\ dtype t = fold_left promote_types (map dtype r) (dtype t0).
Proof.
  unfold stack. intros H.
  apply Result_bind_Ok in H. destruct H as (ts & Hts & H).
  apply expect_tensors_Ok in Hts.
  destruct ts as [| t0 r]; [discriminate H |].
  destruct (negb (forallb (fun u => Shape_eqb (shape u) (shape t0)) r));
    [discriminate H |].
  destruct (negb (forallb (fun u => String.eqb (device u) (device t0)) r));
    [discriminate H |].
  injection H as <-. exists t0, r. subst xs.
  rewrite length_map. auto.
Qed.

Lemma py_iter_length (theta : PyVal) (thetas : list PyVal) (sh : Shape) :
  py_iter theta = Ok thetas ->
  py_shape theta = Ok sh ->
  List.length thetas = Z.to_nat (hd 0 sh).
Proof.
  destruct theta as [t | a | n]; cbn [py_iter py_shape]; intros Hi Hs;
    try discriminate.
  - destruct (ndim t =? 0); [discriminate |].
    injection Hi as <-. injection Hs as <-.
    rewrite length_map. apply rows_length.
  - destruct (ndim a =? 0); [discriminate |].
    injection Hi as <-. injection Hs as <-.
    rewrite length_map. apply rows_length.
Qed.

(** X16: whatever the simulator, when the loop wrapper returns, it returns
    a tensor with as many rows as the batch it was given, which had at
    least one row and rank above 1; on a batch of no rows it fails, with the
    [RuntimeError] of [torch.stack] on an empty list. *)
Theorem batch_loop_simulator_keeps_batch_size (simulator : Simulator) :
  (forall theta v : PyVal,
      get_batch_loop_simulator simulator theta = Ok v ->
      exists (t : Tensor) (theta_shape : Shape),
        v = VTensor t
        /\ py_shape theta = Ok theta_shape
        /\ 1 < rank theta_shape
        /\ 1 <= hd 0 theta_shape
        /\ hd 0 (shape t) = hd 0 theta_shape)
  /\ (forall theta : Tensor,
        1 < ndim theta ->
        hd 0 (shape theta) <= 0 ->
        get_batch_loop_simulator simulator (VTensor theta)
        = Raise (mkExc RuntimeError "stack expects a non-empty TensorList"
                   None)).
Proof.
  split.
  - intros theta v H. unfold get_batch_loop_simulator in H.
    apply Result_bind_Ok in H. destruct H as (nd & Hnd & H).
    apply Result_bind_Ok in H. destruct H as (u & Hassert & H).
    apply py_assert_Ok in Hassert. rewrite Z.gtb_ltb in Hassert.
    apply Z.ltb_lt in Hassert.
    apply Result_bind_Ok in H. destruct H as (thetas & Hiter & H).
    apply Result_bind_Ok in H. destruct H as (xs & Hxs & H).
    apply Result_bind_Ok in H. destruct H as (t & Hstack & H).
    injection H as <-.
    assert (exists sh, py_shape theta = Ok sh /\ rank sh = nd) as (sh & Hsh & Hr).
    { destruct theta as [t0 | a | n]; cbn in Hnd; try discriminate;
        injection Hnd as <-; eexists; split; reflexivity. }
    pose proof (py_iter_length _ _ _ Hiter Hsh) as Hlen.
    pose proof (map_result_length _ _ _ Hxs) as Hlen2.
    destruct (stack_Ok _ _ Hstack) as (t0 & r & Hxs0 & Hshape & _).
    assert (1 <= List.length xs)%nat as Hpos
      by (rewrite Hxs0; cbn [map List.length]; lia).
    exists t, sh. repeat split; try assumption; try lia.
    rewrite Hshape. cbn [hd]. lia.
  - intros theta Hnd Hhd. unfold get_batch_loop_simulator.
    cbn [py_ndim bind Monad_Result py_iter]. unfold py_assert.
    replace (ndim theta >? 1) with true
      by (symmetry; rewrite Z.gtb_ltb; apply Z.ltb_lt; exact Hnd).
    replace (ndim theta =? 0) with false
      by (symmetry; apply Z.eqb_neq; lia).
    cbn [bind Monad_Result].
    assert (rows theta = []) as ->.
    { pose proof (rows_length theta) as Hl.
      replace (Z.to_nat (hd 0 (shape theta))) with 0%nat in Hl by lia.
      destruct (rows theta); [reflexivity | discriminate Hl]. }
    reflexivity.
Qed.

Lemma joblib_simulator_float32
  (f : Simulator) (prior : Dist) (flag : bool) (theta v : PyVal) :
  wrap_as_joblib_efficient_simulator f prior flag theta = Ok v ->
  exists t, v = VTensor t /\ dtype t = float32.
Proof.
  unfold wrap_as_joblib_efficient_simulator. intros H.
  apply Result_bind_Ok in H. destruct H as (t0 & _ & H).
  apply Result_bind_Ok in H. destruct H as (out & _ & H).
  apply Result_bind_Ok in H. destruct H as (r & Hr & H).
  injection H as <-. exists r. split; [reflexivity |].
  destruct out; cbn in Hr; try discriminate;
    injection Hr as <-; apply dtype_to_dtype'.
Qed.

Lemma fold_promote_float32 (ds : list DType) :
  Forall (fun d => d = float32) ds ->
  fold_left promote_types ds float32 = float32.
Proof.
  induction 1 as [| d r Hd _ IH]; cbn [fold_left]; [reflexivity |].
  subst d. exact IH.
Qed.

(** X17: the simulator [process_simulator] returns only ever returns
    [float32] tensors, whether the user simulator was taken as batched or
    was wrapped in the loop, and whatever type the user simulator itself
    returns. *)
Theorem process_simulator_returns_float32
  (user_simulator : UserSimulator) (prior : Dist) (is_numpy_simulator : bool)
  (simulator : Simulator) (theta v : PyVal) :
  process_simulator user_simulator prior is_numpy_simulator = Ok simulator ->
  simulator theta = Ok v ->
  exists t, v = VTensor t /\ dtype t = float32.
Proof.
  intros Hp Hv. unfold process_simulator in Hp.
  destruct user_simulator as [f | n]; [| discriminate Hp].
  cbv zeta in Hp. unfold ensure_batched_simulator in Hp.
  set (joblib := wrap_as_joblib_efficient_simulator f prior
                   is_numpy_simulator) in *.
  destruct (batch_probe joblib prior) as [u | e].
  - injection Hp as <-.
    exact (joblib_simulator_float32 f prior is_numpy_simulator theta v Hv).
  - destruct (caught_by_Exception e); [| discriminate Hp].
    injection Hp as <-. unfold get_batch_loop_simulator in Hv.
    apply Result_bind_Ok in Hv. destruct Hv as (nd & _ & Hv).
    apply Result_bind_Ok in Hv. destruct Hv as (u & _ & Hv).
    apply Result_bind_Ok in Hv. destruct Hv as (thetas & _ & Hv).
    apply Result_bind_Ok in Hv. destruct Hv as (xs & Hxs & Hv).
    apply Result_bind_Ok in Hv. destruct Hv as (t & Hstack & Hv).
    injection Hv as <-. exists t. split; [reflexivity |].
    pose proof (map_result_Forall joblib
                  (fun y => exists u, y = VTensor u /\ dtype u = float32)
                  thetas xs
                  (fun x y =>
                     joblib_simulator_float32 f prior is_numpy_simulator x y)
                  Hxs)
      as Hall.
    destruct (stack_Ok _ _ Hstack) as (t0 & r & Hxs0 & _ & Hd).
    subst xs. cbn [map] in Hall.
    apply Forall_cons_iff in Hall. destruct Hall as [(u0 & Hu0 & Hd0) Hall].
    injection Hu0 as <-. rewrite Hd, Hd0.
    apply fold_promote_float32.
    rewrite Forall_map. rewrite Forall_map in Hall.
    eapply Forall_impl; [| exact Hall].
    intros a (ua & Hua & Hda). injection Hua as <-. exact Hda.
Qed.

(** X18: [wrap_as_pytorch_simulator] does depend on its flag.  Without it
    the user simulator is not called when wrapping.  With it the simulator
    is probed on the array of one prior sample, which must be on the cpu,
    and must return an array; the simulator returned then only takes
    tensors.  Either way the simulator returned only returns [float32]
    tensors. *)
Theorem wrap_as_pytorch_simulator_by_flag
  (simulator : Simulator) (prior : Dist) :
  (exists w, wrap_as_pytorch_simulator simulator prior false = Ok w)
  /\ (forall w,
        wrap_as_pytorch_simulator simulator prior true = Ok w ->
        (exists s x, sample prior [] = Ok s
                     /\ device s = "cpu"
                     /\ simulator (VNdarray s) = Ok (VNdarray x))
        /\ (forall a, exists e,
              w (VNdarray a) = Raise e /\ exc_class e = AttributeError))
  /\ (forall (flag : bool) w (theta v : PyVal),
        wrap_as_pytorch_simulator simulator prior flag = Ok w ->
        w theta = Ok v ->
        exists t, v = VTensor t /\ dtype t = float32).
Proof.
  split; [eexists; reflexivity | split].
  - intros w H. unfold wrap_as_pytorch_simulator in H.
    apply Result_bind_Ok in H. destruct H as (s & Hs & H).
    apply Result_bind_Ok in H. destruct H as (th & Hnp & H).
    apply Result_bind_Ok in H. destruct H as (x & Hx & H).
    apply Result_bind_Ok in H. destruct H as (u & Hassert & H).
    apply py_assert_Ok in Hassert.
    injection H as <-.
    cbn [py_numpy] in Hnp.
    destruct (String.eqb (device s) "cpu") eqn:Edev; [| discriminate Hnp].
    injection Hnp as <-. apply String.eqb_eq in Edev.
    destruct x as [t | a | n]; try discriminate Hassert.
    split; [eauto |].
    intros a0. eexists. split; reflexivity.
  - intros flag w theta v H Hv.
    assert (exists out r, as_tensor out (Some float32) = Ok r
                          /\ v = VTensor r) as (out & r & Hr & ->).
    { destruct flag; unfold wrap_as_pytorch_simulator in H.
      - apply Result_bind_Ok in H. destruct H as (s & _ & H).
        apply Result_bind_Ok in H. destruct H as (th & _ & H).
        apply Result_bind_Ok in H. destruct H as (x & _ & H).
        apply Result_bind_Ok in H. destruct H as (u & _ & H).
        injection H as <-.
        apply Result_bind_Ok in Hv. destruct Hv as (a & _ & Hv).
        apply Result_bind_Ok in Hv. destruct Hv as (out & _ & Hv).
        apply Result_bind_Ok in Hv. destruct Hv as (r & Hr & Hv).
        injection Hv as <-. eauto.
      - injection H as <-.
        apply Result_bind_Ok in Hv. destruct Hv as (out & _ & Hv).
        apply Result_bind_Ok in Hv. destruct Hv as (r & Hr & Hv).
        injection Hv as <-. eauto. }
    exists r. split; [reflexivity |].
    destruct out; cbn in Hr; try discriminate;
      injection Hr as <-; apply dtype_to_dtype'.
Qed.

(** *** validate_theta_and_x and check_data_device *)

(** What a successful [validate_theta_and_x] tells about its arguments. *)
Lemma validate_theta_and_x_Ok
  (theta x : PyVal) (data_device training_device : string)
  (st st' : State) (theta' x' : Tensor) :
  validate_theta_and_x theta x data_device training_device st
  = (Ok (theta', x'), st') ->
  exists (t0 x0 : Tensor) (n : Z),
    theta = VTensor t0 /\ x = VTensor x0
    /\ shape0 t0 = Ok n /\ shape0 x0 = Ok n
    /\ dtype t0 = float32 /\ dtype x0 = float32
    /\ (if String.eqb (device x0) data_device
        then x' = x0 else tensor_to x0 data_device = Ok x')
    /\ (if String.eqb (device t0) data_device
        then theta' = t0 else tensor_to t0 data_device = Ok theta').
Proof.
  intros H. unfold validate_theta_and_x in H.
  destruct theta as [t0 | a | n0]; cbn [as_Tensor] in H;
    try (apply lift_Ok in H; destruct H as [H _]; discriminate H).
  destruct x as [x0 | a | n0]; cbn [as_Tensor] in H;
    try (apply lift_Ok in H; destruct H as [H _]; discriminate H).
  apply M_bind_Ok in H. destruct H as (n & st1 & Hn & H).
  apply lift_Ok in Hn. destruct Hn as [Hn ->].
  apply M_bind_Ok in H. destruct H as (m & st1 & Hm & H).
  apply lift_Ok in Hm. destruct Hm as [Hm ->].
  apply M_bind_Ok in H. destruct H as (u1 & st1 & Hnm & H).
  apply lift_Ok in Hnm. destruct Hnm as [Hnm ->].
  apply py_assert_Ok, Z.eqb_eq in Hnm. subst m.
  apply M_bind_Ok in H. destruct H as (u2 & st1 & Hdt & H).
  apply lift_Ok in Hdt. destruct Hdt as [Hdt ->].
  apply py_assert_Ok, DType_eqb_eq in Hdt.
  apply M_bind_Ok in H. destruct H as (u3 & st1 & Hdx & H).
  apply lift_Ok in Hdx. destruct Hdx as [Hdx ->].
  apply py_assert_Ok, DType_eqb_eq in Hdx.
  apply M_bind_Ok in H. destruct H as (x1 & st1 & Hx1 & H).
  apply M_bind_Ok in H. destruct H as (t1 & st2 & Ht1 & H).
  cbn in H. injection H as <- <- <-.
  exists t0, x0, n. repeat split; try assumption.
  - destruct (String.eqb (device x0) data_device); cbn [negb] in Hx1.
    + cbn in Hx1. injection Hx1 as <- _. reflexivity.
    + apply M_bind_Ok in Hx1. destruct Hx1 as (u & st3 & _ & Hx1).
      apply lift_Ok in Hx1. destruct Hx1 as [Hx1 _]. exact Hx1.
  - destruct (String.eqb (device t0) data_device); cbn [negb] in Ht1.
    + cbn in Ht1. injection Ht1 as <- _. reflexivity.
    + apply M_bind_Ok in Ht1. destruct Ht1 as (u & st3 & _ & Ht1).
      apply lift_Ok in Ht1. destruct Ht1 as [Ht1 _]. exact Ht1.
Qed.

(** X19: [validate_theta_and_x] returns only for two [float32] tensors of
    rank at least 1 with the same leading dimension; each tensor returned
    is the argument itself when that is on the data device, and the
    argument moved there otherwise. *)
Theorem validate_theta_and_x_sound
  (theta x : PyVal) (data_device training_device : string)
  (st st' : State) (theta' x' : Tensor) :
  validate_theta_and_x theta x data_device training_device st
  = (Ok (theta', x'), st') ->
  exists (t0 x0 : Tensor) (n : Z),
    theta = VTensor t0 /\ x = VTensor x0
    /\ shape0 t0 = Ok n /\ shape0 x0 = Ok n
    /\ dtype t0 = float32 /\ dtype x0 = float32
    /\ (if String.eqb (device x0) data_device
        then x' = x0 else tensor_to x0 data_device = Ok x')
    /\ (if String.eqb (device t0) data_device
        then theta' = t0 else tensor_to t0 data_device = Ok theta').
Proof. apply validate_theta_and_x_Ok. Qed.

(** X20: for valid arguments, a tensor that is not on the data device is
    announced by a warning that names its device, the data device and the
    training device, and then moved: [x] first, [theta] second, one
    warning for each tensor moved and none for a tensor that is already
    there, which is returned as it is.  The warning comes before the move,
    so it stays when the move fails: a failing move of [x] leaves the
    warning about [x] and [theta] is not looked at; a failing move of
    [theta] leaves the warning about [theta], after the one about [x] when
    [x] was moved. *)
Theorem validate_theta_and_x_relocates
  (theta x : Tensor) (n : Z) (data_device training_device : string)
  (st : State) :
  shape0 theta = Ok n -> shape0 x = Ok n ->
  dtype theta = float32 -> dtype x = float32 ->
  let run :=
    validate_theta_and_x (VTensor theta) (VTensor x)
      data_device training_device st in
  let warned (l : list string) :=
    mkState (validate_args st) (l ++ warnings st) in
  let about_x := msg_move_x (device x) data_device training_device in
  let about_theta :=
    msg_move_theta (device theta) data_device training_device in
  (* x is moved *)
  (forall e,
      device x <> data_device ->
      tensor_to x data_device = Raise e ->
      run = (Raise e, warned [about_x]))
  /\ (forall x' theta',
        device x <> data_device ->
        tensor_to x data_device = Ok x' ->
        device theta <> data_device ->
        tensor_to theta data_device = Ok theta' ->
        run = (Ok (theta', x'), warned [about_theta; about_x]))
  /\ (forall x' e,
        device x <> data_device ->
        tensor_to x data_device = Ok x' ->
        device theta <> data_device ->
        tensor_to theta data_device = Raise e ->
        run = (Raise e, warned [about_theta; about_x]))
  /\ (forall x',
        device x <> data_device ->
        tensor_to x data_device = Ok x' ->
        device theta = data_device ->
        run = (Ok (theta, x'), warned [about_x]))
  (* x is on the data device *)
  /\ (forall theta',
        device x = data_device ->
        device theta <> data_device ->
        tensor_to theta data_device = Ok theta' ->
        run = (Ok (theta', x), warned [about_theta]))
  /\ (forall e,
        device x = data_device ->
        device theta <> data_device ->
        tensor_to theta data_device = Raise e ->
        run = (Raise e, warned [about_theta]))
  /\ (device x = data_device ->
      device theta = data_device ->
      run = (Ok (theta, x), st)).
Proof.
  intros Ht Hx Hdt Hdx run warned about_x about_theta.
  subst run warned about_x about_theta.
  unfold validate_theta_and_x. cbn [as_Tensor bind Monad_M lift].
  rewrite Ht, Hx, Z.eqb_refl, Hdt, Hdx.
  cbn [py_assert DType_eqb bind Monad_M lift].
  split; [| split; [| split; [| split; [| split; [| split]]]]].
  - intros e Hdev He. apply String.eqb_neq in Hdev. rewrite Hdev.
    cbn [negb bind Monad_M lift warn]. rewrite He. reflexivity.
  - intros x' theta' Hdev Hx' Hdevt Ht'.
    apply String.eqb_neq in Hdev. rewrite Hdev.
    cbn [negb bind Monad_M lift warn]. rewrite Hx'.
    apply String.eqb_neq in Hdevt. rewrite Hdevt.
    cbn [negb bind Monad_M lift warn validate_args warnings].
    rewrite Ht'. reflexivity.
  - intros x' e Hdev Hx' Hdevt Ht'.
    apply String.eqb_neq in Hdev. rewrite Hdev.
    cbn [negb bind Monad_M lift warn]. rewrite Hx'.
    apply String.eqb_neq in Hdevt. rewrite Hdevt.
    cbn [negb bind Monad_M lift warn validate_args warnings].
    rewrite Ht'. reflexivity.
  - intros x' Hdev Hx' Hdevt.
    apply String.eqb_neq in Hdev. rewrite Hdev.
    cbn [negb bind Monad_M lift warn]. rewrite Hx'.
    apply String.eqb_eq in Hdevt. rewrite Hdevt. reflexivity.
  - intros theta' Hdev Hdevt Ht'.
    apply String.eqb_eq in Hdev. rewrite Hdev.
    apply String.eqb_neq in Hdevt. rewrite Hdevt.
    cbn [negb bind Monad_M lift warn ret]. rewrite Ht'. reflexivity.
  - intros e Hdev Hdevt Ht'.
    apply String.eqb_eq in Hdev. rewrite Hdev.
    apply String.eqb_neq in Hdevt. rewrite Hdevt.
    cbn [negb bind Monad_M lift warn ret]. rewrite Ht'. reflexivity.
  - intros Hdev Hdevt.
    apply String.eqb_eq in Hdev. rewrite Hdev.
    apply String.eqb_eq in Hdevt. rewrite Hdevt. reflexivity.
Qed.

(** X21: when [t.to(data_device)] puts a tensor on the device named, the
    pair [validate_theta_and_x] returns is on the data device, and so
    passes [check_data_device]. *)
Theorem validate_theta_and_x_common_device
  (theta x : PyVal) (data_device training_device : string)
  (st st' : State) (theta' x' : Tensor) :
  (forall t t', tensor_to t data_device = Ok t' -> device t' = data_device) ->
  validate_theta_and_x theta x data_device training_device st
  = (Ok (theta', x'), st') ->
  device theta' = data_device
  /\ device x' = data_device
  /\ check_data_device theta' x' = Ok tt.
Proof.
  intros Hto H.
  destruct (validate_theta_and_x_Ok _ _ _ _ _ _ _ _ H)
    as (t0 & x0 & n & _ & _ & _ & _ & _ & _ & Hx' & Ht').
  assert (device x' = data_device) as Hdx.
  { destruct (String.eqb (device x0) data_device) eqn:E.
    - subst x'. apply String.eqb_eq. exact E.
    - eapply Hto; eassumption. }
  assert (device theta' = data_device) as Hdt.
  { destruct (String.eqb (device t0) data_device) eqn:E.
    - subst theta'. apply String.eqb_eq. exact E.
    - eapply Hto; eassumption. }
  repeat split; try assumption.
  unfold check_data_device. rewrite Hdx, Hdt, String.eqb_refl. reflexivity.
Qed.

(** *** check_prior_support and check_sbi_inputs *)

(** X22: [check_prior_support] draws one sample and checks it against the
    support, both inside its [try]: a [NotImplementedError] of either step
    is re-raised as a [NotImplementedError] with the clarified message that
    chains the original, every other error reaches the caller unchanged,
    and the check passes exactly when both steps succeed. *)
Theorem check_prior_support_errors (prior : Dist) :
  (forall e,
      sample prior [1] = Raise e ->
      check_prior_support prior
      = if caught_by NotImplementedError e
        then Raise (mkExc NotImplementedError msg_prior_support (Some e))
        else Raise e)
  /\ (forall theta e,
        sample prior [1] = Ok theta ->
        within_support prior theta = Raise e ->
        check_prior_support prior
        = if caught_by NotImplementedError e
          then Raise (mkExc NotImplementedError msg_prior_support (Some e))
          else Raise e)
  /\ (check_prior_support prior = Ok tt
      <-> exists theta r,
            sample prior [1] = Ok theta
            /\ within_support prior theta = Ok r).
Proof.
  unfold check_prior_support, raise_from. split; [| split; [| split]].
  - intros e He. rewrite He. reflexivity.
  - intros theta e Hs He. rewrite Hs. cbn [bind Monad_Result]. rewrite He.
    reflexivity.
  - intros H.
    destruct (sample prior [1]) as [theta | e]; cbn [bind Monad_Result] in H.
    + destruct (within_support prior theta) as [r | e] eqn:Hr.
      * exists theta, r. auto.
      * destruct (caught_by NotImplementedError e); discriminate H.
    + destruct (caught_by NotImplementedError e); discriminate H.
  - intros (theta & r & Hs & Hr). rewrite Hs. cbn [bind Monad_Result].
    rewrite Hr. reflexivity.
Qed.

(** X23: [check_sbi_inputs] passes only if the support check passes, one
    sample of the prior has leading dimension 1, and the simulator turns
    that sample into a tensor with leading dimension 1. *)
Theorem check_sbi_inputs_sound (simulator : Simulator) (prior : Dist) :
  check_sbi_inputs simulator prior = Ok tt ->
  check_prior_support prior = Ok tt
  /\ exists (theta out : Tensor) (theta_event sim_event : Shape),
       sample prior [1] = Ok theta
       /\ shape theta = 1 :: theta_event
       /\ simulator (VTensor theta) = Ok (VTensor out)
       /\ shape out = 1 :: sim_event.
Proof.
  intros H. unfold check_sbi_inputs in H. cbv zeta in H.
  apply Result_bind_Ok in H. destruct H as ([] & Hsup & H).
  apply Result_bind_Ok in H. destruct H as (theta & Hs & H).
  apply Result_bind_Ok in H. destruct H as ([tb te] & Hun & H).
  apply Result_bind_Ok in H. destruct H as (simulation & Hsim & H).
  apply Result_bind_Ok in H. destruct H as (ssh & Hssh & H).
  apply Result_bind_Ok in H. destruct H as ([sb se] & Hun2 & H).
  apply Result_bind_Ok in H. destruct H as (u1 & _ & H).
  apply Result_bind_Ok in H. destruct H as (u2 & Hist & H).
  apply py_assert_Ok in Hist.
  apply Result_bind_Ok in H. destruct H as (u3 & Htb & H).
  apply py_assert_Ok, Z.eqb_eq in Htb. apply py_assert_Ok, Z.eqb_eq in H.
  subst tb sb.
  destruct simulation as [out | a | n]; try discriminate Hist.
  cbn [py_shape] in Hssh. injection Hssh as <-.
  split; [exact Hsup |].
  exists theta, out, te, se. repeat split; try assumption.
  - destruct (shape theta); cbn in Hun; [discriminate |].
    injection Hun as <- <-. reflexivity.
  - destruct (shape out); cbn in Hun2; [discriminate |].
    injection Hun2 as <- <-. reflexivity.
Qed.

(** X24: how [check_sbi_inputs] fails on a simulator output, the prior
    being fine: an object without a shape raises an [AttributeError] and a
    0-d tensor or array the [ValueError] of the unpacking, both before any
    assertion; an array of rank at least 1 fails the tensor assertion; for
    tensors the batch size of [theta] is asserted before that of the
    simulation, each with its own message. *)
Theorem check_sbi_inputs_failures
  (simulator : Simulator) (prior : Dist)
  (theta : Tensor) (d : Z) (rest : Shape) (simulation : PyVal) :
  check_prior_support prior = Ok tt ->
  sample prior [1] = Ok theta ->
  shape theta = d :: rest ->
  simulator (VTensor theta) = Ok simulation ->
  (forall n, simulation = VObject n ->
     exists e, check_sbi_inputs simulator prior = Raise e
               /\ exc_class e = AttributeError)
  /\ (py_shape simulation = Ok [] ->
      check_sbi_inputs simulator prior
      = Raise (mkExc ValueError msg_unpack_empty None))
  /\ (forall a, simulation = VNdarray a -> shape a <> [] ->
      check_sbi_inputs simulator prior
      = Raise (mkExc AssertionError msg_sbi_simulation_tensor None))
  /\ (forall out m sim_event,
        simulation = VTensor out -> shape out = m :: sim_event ->
        check_sbi_inputs simulator prior
        = if negb (d =? 1)
          then Raise (mkExc AssertionError (msg_theta_batch_shape d 1) None)
          else if negb (m =? 1)
          then Raise (mkExc AssertionError (msg_simulation_batch_shape m 1)
                        None)
          else Ok tt).
Proof.
  intros Hsup Hs Hsh Hsim.
  unfold check_sbi_inputs. cbv zeta.
  rewrite Hsup. cbn [bind Monad_Result].
  rewrite Hs. cbn [bind Monad_Result].
  rewrite Hsh. cbn [unpack_leading bind Monad_Result].
  rewrite Hsim. cbn [bind Monad_Result].
  split; [| split; [| split]].
  - intros n ->. eexists. split; reflexivity.
  - intros Hempty. rewrite Hempty. reflexivity.
  - intros a -> Hne. cbn [py_shape bind Monad_Result].
    destruct (shape a) as [| m r]; [congruence |]. reflexivity.
  - intros out m se -> Hout. cbn [py_shape bind Monad_Result].
    rewrite Hout.
    cbn [unpack_leading bind Monad_Result is_Tensor py_assert].
    destruct (d =? 1); cbn [negb py_assert bind Monad_Result];
      [| reflexivity].
    destruct (m =? 1); reflexivity.
Qed.

Lemma rows_single (theta : Tensor) (r : Shape) :
  shape theta = 1 :: r ->
  rows theta
  = [mkTensor r (dtype theta) (device theta)
       (firstn (Z.to_nat (numel r)) (data theta))].
Proof. intros Hs. unfold rows. rewrite Hs. reflexivity. Qed.

(** X25: a user simulator that handles the one parameter vector of a prior
    sample and returns something convertible to a tensor passes
    [check_sbi_inputs] once it is wrapped as [process_simulator] wraps a
    simulator that is not batched: type-bridged and looped.  The prior must
    pass the support check and give samples [(1, ...)] of rank above 1. *)
Theorem looped_simulator_passes_check_sbi_inputs
  (f : Simulator) (prior : Dist) (is_numpy_simulator : bool)
  (theta : Tensor) (r : Shape) (out : PyVal) (o : Tensor) :
  check_prior_support prior = Ok tt ->
  sample prior [1] = Ok theta ->
  shape theta = 1 :: r ->
  r <> [] ->
  f (VTensor (mkTensor r (dtype theta) (device theta)
                (firstn (Z.to_nat (numel r)) (data theta)))) = Ok out ->
  as_tensor out (Some float32) = Ok o ->
  check_sbi_inputs
    (get_batch_loop_simulator
       (wrap_as_joblib_efficient_simulator f prior is_numpy_simulator))
    prior
  = Ok tt.
Proof.
  intros Hsup Hs Hsh Hne Hf Ho.
  unfold check_sbi_inputs. cbv zeta.
  rewrite Hsup. cbn [bind Monad_Result].
  rewrite Hs. cbn [bind Monad_Result].
  rewrite Hsh. cbn [unpack_leading bind Monad_Result].
  unfold get_batch_loop_simulator.
  cbn [py_ndim bind Monad_Result py_iter]. unfold ndim. rewrite Hsh.
  pose proof (rank_nonempty r Hne) as Hr.
  unfold py_assert at 1.
  replace (rank (1 :: r) >? 1) with true
    by (symmetry; rewrite Z.gtb_ltb; apply Z.ltb_lt; rewrite rank_cons; lia).
  replace (rank (1 :: r) =? 0) with false
    by (symmetry; apply Z.eqb_neq; rewrite rank_cons; lia).
  cbn [bind Monad_Result].
  rewrite (rows_single theta r Hsh). cbn [map map_result].
  unfold wrap_as_joblib_efficient_simulator at 1.
  cbn [as_tensor bind Monad_Result].
  rewrite Hf. cbn [bind Monad_Result]. rewrite Ho. cbn [bind Monad_Result].
  unfold stack. cbn [expect_tensors bind Monad_Result forallb negb].
  cbn [py_shape shape unpack_leading bind Monad_Result List.length].
  reflexivity.
Qed.

(** *** test_posterior_net_for_multi_d_x *)

(** X26: [test_posterior_net_for_multi_d_x] passes for a net without
    [log_prob]; a net with one is probed on the first two columns of
    [theta] and the first two rows of [x]; an error that is not a
    [RuntimeError], of that class or of a subclass of it, is not wrapped: a
    [theta] of rank below 2 raises the [IndexError] of the slicing as it
    is; a [NotImplementedError], which is a [RuntimeError], is wrapped as
    one is, with the hint for an [x] of more than 2 dimensions and the
    empty message otherwise. *)
Theorem posterior_net_probe_slices (net : Net) (theta x : Tensor) :
  (net_log_prob net = None ->
   test_posterior_net_for_multi_d_x net theta x = Ok tt)
  /\ (forall log_prob n m rest k rest',
        net_log_prob net = Some log_prob ->
        shape theta = n :: m :: rest ->
        shape x = k :: rest' ->
        exists inputs condition,
          shape inputs = n :: Z.min m 2 :: rest
          /\ shape condition = Z.min k 2 :: rest'
          /\ log_prob_probe net theta x
             = (log_prob inputs condition ;; Ok tt))
  /\ (forall e,
        log_prob_probe net theta x = Raise e ->
        caught_by RuntimeError e = false ->
        test_posterior_net_for_multi_d_x net theta x = Raise e)
  /\ (forall log_prob,
        net_log_prob net = Some log_prob ->
        ndim theta < 2 ->
        test_posterior_net_for_multi_d_x net theta x
        = Raise (mkExc IndexError "too many indices for tensor" None))
  /\ (forall e,
        log_prob_probe net theta x = Raise e ->
        exc_class e = NotImplementedError ->
        test_posterior_net_for_multi_d_x net theta x
        = Raise (mkExc RuntimeError
                   (if ndim x >? 2 then msg_debug_hint (ndim x - 1) else "")
                   (Some e))).
Proof.
  split; [| split; [| split; [| split]]].
  - intros Hnone. unfold test_posterior_net_for_multi_d_x, log_prob_probe.
    rewrite Hnone. reflexivity.
  - intros lp n m rest k rest' Hlp Hth Hx.
    unfold log_prob_probe, slice_cols2, slice_rows2. rewrite Hlp, Hth, Hx.
    cbn [bind Monad_Result]. eexists. eexists.
    split; [| split; [| reflexivity]]; reflexivity.
  - intros e He Hc. unfold test_posterior_net_for_multi_d_x.
    rewrite He, Hc. reflexivity.
  - intros lp Hlp Hnd.
    unfold test_posterior_net_for_multi_d_x, log_prob_probe, slice_cols2.
    rewrite Hlp.
    destruct (shape theta) as [| n [| m rest]] eqn:Hsh; try reflexivity.
    exfalso. unfold ndim in Hnd. rewrite Hsh, !rank_cons in Hnd.
    pose proof (rank_nonneg rest). lia.
  - intros e He Hc. unfold test_posterior_net_for_multi_d_x.
    rewrite He. unfold caught_by. rewrite Hc. reflexivity.
Qed.

End FurtherProperties.

(* ===================================================================== *)
(** * The further properties at concrete inputs *)
(* ===================================================================== *)

(** A [float64] array of 3 values with event shape [(3,)]. *)
Lemma process_x_postcondition_on_array :
  dtype (mkTensor [1; 3] float32 "cpu" [1; 2; 16777216]) = float32
  /\ 2 <= ndim (mkTensor [1; 3] float32 "cpu" [1; 2; 16777216])
  /\ (forall es, Some [3] = Some es ->
      tl (shape (mkTensor [1; 3] float32 "cpu" [1; 2; 16777216])) = es)
  /\ (exists x0,
         as_tensor (VNdarray (mkTensor [3] float64 "cpu" [1; 2; 16777217]))
           (Some float32) = Ok x0
         /\ data (mkTensor [1; 3] float32 "cpu" [1; 2; 16777216]) = data x0
         /\ device (mkTensor [1; 3] float32 "cpu" [1; 2; 16777216]) = device x0).
Proof.
  apply (process_x_postcondition
           (VNdarray (mkTensor [3] float64 "cpu" [1; 2; 16777217])) (Some [3])).
  reflexivity.
Defined.

(** An image of shape [(2, 2)] gets the batch dimension. *)
Lemma process_x_adds_batch_dimension_to_image :
  process_x (VTensor (mkTensor [2; 2] float32 "cpu" [1; 2; 3; 4]))
    (Some [2; 2])
  = Ok (mkTensor [1; 2; 2] float32 "cpu" [1; 2; 3; 4]).
Proof.
  apply (process_x_adds_batch_dimension
           (mkTensor [2; 2] float32 "cpu" [1; 2; 3; 4]) [2; 2]);
    [discriminate | reflexivity].
Defined.

(** Four trials of event shape [(2,)] are kept as they are. *)
Lemma process_x_keeps_four_trials :
  process_x (VTensor theta_4x2) (Some [2]) = Ok theta_4x2.
Proof.
  apply (process_x_keeps_batched theta_4x2 4 [2]);
    [discriminate | reflexivity].
Defined.

(** A vector against an event shape of three dimensions. *)
Lemma process_x_vector_against_3d_event :
  process_x (VTensor (mkTensor [3] float32 "cpu" [1; 2; 3])) (Some [1; 1; 3])
  = Raise (mkExc ValueError (msg_x_event_shape [1; 3] [1; 1; 3]) None).
Proof.
  apply (process_x_event_shape_too_long
           (VTensor (mkTensor [3] float32 "cpu" [1; 2; 3]))
           (mkTensor [3] float32 "cpu" [1; 2; 3]) [1; 1; 3]);
    [reflexivity | unfold ndim, rank; cbn; lia].
Defined.

(** The box-uniform over two parameters has the batch behaviour asked
    for. *)
Lemma check_prior_batch_behavior_on_box :
  check_prior_batch_behavior (dist_as_prior prior_2d) = Ok tt.
Proof.
  apply (proj2 (check_prior_batch_behavior_passes_iff
                  (dist_as_prior prior_2d))).
  exists (VTensor (mkTensor [1; 2] float32 "cpu" [0; 0])),
         (VTensor (mkTensor [1] float32 "cpu" [0])), [1; 2].
  repeat split; try reflexivity; discriminate.
Defined.

(** Tensor samples with array log-densities are refused, and nothing is
    warned. *)
Lemma maybe_wrap_mixed_prior :
  maybe_wrap_prior_as_pytorch (sbi_utils := sbi_float32_bounds)
    mixed_prior None initial_state
  = (Raise (mkExc TypeError (msg_prior_return "<class 'torch.Tensor'>") None),
     initial_state).
Proof.
  refine (proj1 (proj2 (maybe_wrap_prior_same_kind
                          (sbi_utils := sbi_float32_bounds)
                          mixed_prior None _ _ initial_state _ _)) _ _);
    reflexivity.
Defined.

(** What [process_prior] returns for a custom prior that answers in numpy
    arrays: the wrapper, 2 parameters, the numpy flag, and the three
    warnings of the wrapper's constructor. *)
Lemma process_prior_postcondition_numpy_prior :
  (exists s, sample (Distribution numpy_wrapper) [] = Ok s
             /\ dtype s = float32 /\ 2 = numel (shape s))
  /\ ((forall c, PCustom numpy_prior <> PCustom c) ->
      true = false
      /\ numel (batch_shape (Distribution numpy_wrapper)) <= 1
      /\ validate_args (mkState true (rev wrapper_warnings)) = false)
  /\ (forall c, PCustom numpy_prior = PCustom c ->
      validate_args (mkState true (rev wrapper_warnings))
      = validate_args initial_state
      /\ exists (w : DistBehaviour) (es : Shape) (ws : list string),
          Distribution numpy_wrapper = Distribution w
          /\ CustomPriorWrapper (SbiUtils := sbi_float32_bounds) c es None
             = (ws, Ok w)
          /\ warnings (mkState true (rev wrapper_warnings))
             = rev ws ++ warnings initial_state).
Proof.
  apply (process_prior_postcondition (sbi_utils := sbi_float32_bounds)
           (PCustom numpy_prior) None initial_state).
  reflexivity.
Defined.

(** A box-uniform prior is processed without a warning. *)
Lemma process_pytorch_prior_box_silent :
  warnings (snd (process_pytorch_prior (sbi_utils := sbi_float32_bounds)
                   prior_2d initial_state))
  = warnings initial_state.
Proof.
  apply (proj2 (proj2 (process_pytorch_prior_warns_only_on_cast
                         (sbi_utils := sbi_float32_bounds)
                         prior_2d initial_state))).
  intros low high. discriminate.
Defined.

(** [Uniform(zeros(3), ones(3))] is rejected. *)
Lemma process_prior_uniform_3_rejected :
  process_prior (sbi_utils := sbi_float32_bounds)
    (PDistribution (Uniform (mkTensor [3] float32 "cpu" [0; 0; 0])
                            (mkTensor [3] float32 "cpu" [1; 1; 1])))
    None initial_state
  = (Raise (mkExc ValueError msg_prior_batch_dims None), mkState false []).
Proof.
  apply (process_prior_batched_uniform_rejected
           (sbi_utils := sbi_float32_bounds)).
  cbn. lia.
Defined.

(** [BoxUniform(zeros(2), ones(2))] is accepted as it is. *)
Lemma process_prior_box_uniform_2d :
  process_prior (sbi_utils := sbi_float32_bounds)
    (PDistribution prior_2d) None initial_state
  = (Ok (prior_2d, 2, false), mkState false []).
Proof.
  apply (process_prior_box_uniform (sbi_utils := sbi_float32_bounds)
           (mkTensor [2] float32 "cpu" [0; 0])
           (mkTensor [2] float32 "cpu" [1; 1]) 2 None initial_state).
  reflexivity.
Defined.

(** A custom prior without [sample]. *)
Lemma process_prior_no_sample :
  process_prior (sbi_utils := sbi_float32_bounds)
    (PCustom no_sample_prior) None initial_state
  = (Raise (mkExc AttributeError msg_needs_sample
              (Some (mkExc AttributeError
                       "object has no attribute 'sample'" None))),
     initial_state).
Proof.
  apply (proj1 (process_prior_custom_missing_method
                  (sbi_utils := sbi_float32_bounds)
                  no_sample_prior None initial_state)).
  reflexivity.
Defined.

(** [prepare_for_sbi] on [lambda theta: theta.sum()] and
    [Uniform(zeros(1), ones(1))]: the simulator is looped, the prior cast,
    and the two pass [check_sbi_inputs]. *)
Lemma prepare_for_sbi_sum_uniform :
  check_sbi_inputs (sbi_support := Zsupport)
    (get_batch_loop_simulator
       (wrap_as_joblib_efficient_simulator sum_simulator box_uniform_1d false))
    box_uniform_1d
  = Ok tt
  /\ (exists f, Callable sum_simulator = Callable f)
  /\ exists (n : Z) (b : bool),
       process_prior (sbi_utils := sbi_float32_bounds)
         (PDistribution uniform_1d) None
         (mkState true [msg_prepare_deprecated])
       = (Ok (box_uniform_1d, n, b),
          mkState false [msg_cast_box_uniform; msg_prepare_deprecated])
       /\ process_simulator (Callable sum_simulator) box_uniform_1d b
          = Ok (get_batch_loop_simulator
                  (wrap_as_joblib_efficient_simulator sum_simulator
                     box_uniform_1d false)).
Proof.
  apply (proj2 (prepare_for_sbi_warns_and_checks
                  (sbi_utils := sbi_float32_bounds)
                  (sbi_support := Zsupport)
                  (Callable sum_simulator) (PDistribution uniform_1d)
                  initial_state)).
  reflexivity.
Defined.

(** The identity handles the two parameter vectors of the probe. *)
Lemma ensure_batched_simulator_identity :
  ensure_batched_simulator identity_simulator prior_2d
  = Ok identity_simulator.
Proof.
  refine (proj1 (ensure_batched_simulator_batched_unchanged
                   identity_simulator prior_2d) _ _ [2; 2] _ _ _ _ _);
    try reflexivity.
Defined.

(** The four sums have the batch size of the four parameter vectors. *)
Lemma batch_loop_four_rows :
  exists (t : @Tensor Z) (theta_shape : Shape),
    VTensor (mkTensor [4] float32 "cpu" [3; 7; 11; 15]) = VTensor t
    /\ py_shape (VTensor theta_4x2) = Ok theta_shape
    /\ 1 < rank theta_shape
    /\ 1 <= hd 0 theta_shape
    /\ hd 0 (shape t) = hd 0 theta_shape.
Proof.
  apply (proj1 (batch_loop_simulator_keeps_batch_size sum_simulator)
           (VTensor theta_4x2)).
  reflexivity.
Defined.

(** The processed sum simulator returns a [float32] tensor. *)
Lemma process_simulator_sum_float32 :
  exists t : @Tensor Z,
    VTensor (mkTensor [4] float32 "cpu" [3; 7; 11; 15]) = VTensor t
    /\ dtype t = float32.
Proof.
  apply (process_simulator_returns_float32
           (Callable sum_simulator) prior_2d false
           (get_batch_loop_simulator
              (wrap_as_joblib_efficient_simulator sum_simulator prior_2d
                 false))
           (VTensor theta_4x2));
    reflexivity.
Defined.

(** The sum of a [float64] vector, wrapped without the numpy flag. *)
Lemma wrap_as_pytorch_simulator_sum :
  exists t : @Tensor Z,
    VTensor (mkTensor [] float32 "cpu" [3]) = VTensor t
    /\ dtype t = float32.
Proof.
  refine (proj2 (proj2 (wrap_as_pytorch_simulator_by_flag
                          sum_simulator prior_2d))
            false _ (VTensor (mkTensor [2] float64 "cpu" [1; 2])) _ _ _);
    reflexivity.
Defined.

(** What the success of [validate_theta_and_x] on accelerator data with
    the cpu as data device tells. *)
Lemma validate_theta_and_x_sound_on_cuda :
  exists (t0 x0 : @Tensor Z) (n : Z),
    VTensor theta_cuda = VTensor t0 /\ VTensor x_cuda = VTensor x0
    /\ shape0 t0 = Ok n /\ shape0 x0 = Ok n
    /\ dtype t0 = float32 /\ dtype x0 = float32
    /\ (if String.eqb (device x0) "cpu"
        then mkTensor [5; 3] float32 "cpu" (zeros [5; 3]) = x0
        else tensor_to x0 "cpu"
             = Ok (mkTensor [5; 3] float32 "cpu" (zeros [5; 3])))
    /\ (if String.eqb (device t0) "cpu"
        then mkTensor [5; 2] float32 "cpu" (zeros [5; 2]) = t0
        else tensor_to t0 "cpu"
             = Ok (mkTensor [5; 2] float32 "cpu" (zeros [5; 2]))).
Proof.
  apply (validate_theta_and_x_sound (VTensor theta_cuda) (VTensor x_cuda)
           "cpu" "cuda:0" initial_state
           (mkState true
              [msg_move_theta "cuda:0" "cpu" "cuda:0";
               msg_move_x "cuda:0" "cpu" "cuda:0"])).
  reflexivity.
Defined.

(** Accelerator data is moved to the cpu with two warnings; parameters
    alone on the accelerator are moved with one; and a data device the
    library does not know leaves the warning about [x] and the error of the
    move. *)
Lemma validate_theta_and_x_moves_cuda :
  validate_theta_and_x (VTensor theta_cuda) (VTensor x_cuda)
    "cpu" "cuda:0" initial_state
  = (Ok (mkTensor [5; 2] float32 "cpu" (zeros [5; 2]),
         mkTensor [5; 3] float32 "cpu" (zeros [5; 3])),
     mkState true
       [msg_move_theta "cuda:0" "cpu" "cuda:0";
        msg_move_x "cuda:0" "cpu" "cuda:0"])
  /\ validate_theta_and_x (VTensor theta_cuda)
       (VTensor (mkTensor [5; 3] float32 "cpu" (zeros [5; 3])))
       "cpu" "cuda:0" initial_state
     = (Ok (mkTensor [5; 2] float32 "cpu" (zeros [5; 2]),
            mkTensor [5; 3] float32 "cpu" (zeros [5; 3])),
        mkState true [msg_move_theta "cuda:0" "cpu" "cuda:0"])
  /\ validate_theta_and_x (torch := Ztorch_two_devices)
       (VTensor theta_cuda) (VTensor x_cuda) "gpu" "cuda:0" initial_state
     = (Raise (mkExc RuntimeError
                 "Expected one of cpu, cuda device type at start of device string: gpu"
                 None),
        mkState true [msg_move_x "cuda:0" "gpu" "cuda:0"]).
Proof.
  split; [| split].
  - refine (proj1 (proj2 (validate_theta_and_x_relocates theta_cuda x_cuda 5
                            "cpu" "cuda:0" initial_state _ _ _ _))
              _ _ _ _ _ _);
      try reflexivity; discriminate.
  - refine (proj1 (proj2 (proj2 (proj2 (proj2
              (validate_theta_and_x_relocates theta_cuda
                 (mkTensor [5; 3] float32 "cpu" (zeros [5; 3])) 5
                 "cpu" "cuda:0" initial_state _ _ _ _)))))
              _ _ _ _);
      try reflexivity; discriminate.
  - refine (proj1 (validate_theta_and_x_relocates
                     (torch := Ztorch_two_devices) theta_cuda x_cuda 5
                     "gpu" "cuda:0" initial_state _ _ _ _)
              _ _ _);
      try reflexivity; discriminate.
Defined.

(** After the move the pair is on the cpu. *)
Lemma validate_theta_and_x_cuda_common_device :
  device (mkTensor [5; 2] float32 "cpu" (zeros [5; 2])) = "cpu"
  /\ device (mkTensor [5; 3] float32 "cpu" (zeros [5; 3])) = "cpu"
  /\ check_data_device
       (mkTensor [5; 2] float32 "cpu" (zeros [5; 2]))
       (mkTensor [5; 3] float32 "cpu" (zeros [5; 3]))
     = Ok tt.
Proof.
  apply (validate_theta_and_x_common_device
           (VTensor theta_cuda) (VTensor x_cuda) "cpu" "cuda:0"
           initial_state
           (mkState true
              [msg_move_theta "cuda:0" "cpu" "cuda:0";
               msg_move_x "cuda:0" "cpu" "cuda:0"])).
  - intros t t' H. cbn in H. injection H as <-. reflexivity.
  - reflexivity.
Defined.

(** A prior whose support is not implemented. *)
Lemma check_prior_support_not_implemented :
  check_prior_support (sbi_support := no_support) prior_2d
  = Raise (mkExc NotImplementedError msg_prior_support
             (Some (mkExc NotImplementedError "support is not implemented"
                      None))).
Proof.
  refine (proj1 (proj2 (check_prior_support_errors
                          (sbi_support := no_support) prior_2d))
            _ (mkExc NotImplementedError "support is not implemented" None)
            _ _);
    reflexivity.
Defined.

(** What passing [check_sbi_inputs] tells for the identity simulator. *)
Lemma check_sbi_inputs_sound_identity :
  check_prior_support (sbi_support := Zsupport) prior_2d = Ok tt
  /\ exists (theta out : @Tensor Z) (theta_event sim_event : Shape),
       sample prior_2d [1] = Ok theta
       /\ shape theta = 1 :: theta_event
       /\ identity_simulator (VTensor theta) = Ok (VTensor out)
       /\ shape out = 1 :: sim_event.
Proof.
  apply (check_sbi_inputs_sound (sbi_support := Zsupport)).
  reflexivity.
Defined.

(** The sum simulator, not looped, returns a 0-d tensor: the unpacking of
    its shape fails. *)
Lemma check_sbi_inputs_scalar_output :
  check_sbi_inputs (sbi_support := Zsupport) sum_simulator prior_2d
  = Raise (mkExc ValueError msg_unpack_empty None).
Proof.
  refine (proj1 (proj2 (check_sbi_inputs_failures (sbi_support := Zsupport)
                          sum_simulator prior_2d _ 1 [2] _ _ _ _ _)) _);
    reflexivity.
Defined.

(** The sum simulator, type-bridged and looped, passes. *)
Lemma check_sbi_inputs_looped_sum :
  check_sbi_inputs (sbi_support := Zsupport)
    (get_batch_loop_simulator
       (wrap_as_joblib_efficient_simulator sum_simulator prior_2d false))
    prior_2d
  = Ok tt.
Proof.
  refine (looped_simulator_passes_check_sbi_inputs (sbi_support := Zsupport)
            sum_simulator prior_2d false _ [2] _ _ _ _ _ _ _ _);
    try reflexivity; discriminate.
Defined.

(** A parameter vector without a batch dimension: the slicing fails, and
    the [IndexError] is let through.  A [NotImplementedError] of the net is
    wrapped, for an image [x] with the hint. *)
Lemma posterior_net_probe_vector_theta :
  test_posterior_net_for_multi_d_x failing_net
    (mkTensor [2] float32 "cpu" [1; 2])
    (mkTensor [2; 3] float32 "cpu" (zeros [2; 3]))
  = Raise (mkExc IndexError "too many indices for tensor" None)
  /\ test_posterior_net_for_multi_d_x unimplemented_net
       theta_4x2 (mkTensor [4; 2; 2] float32 "cpu" (zeros [4; 2; 2]))
     = Raise (mkExc RuntimeError (msg_debug_hint 2)
                (Some (mkExc NotImplementedError "" None))).
Proof.
  split.
  - refine (proj1 (proj2 (proj2 (proj2
              (posterior_net_probe_slices failing_net _ _)))) _ _ _);
      [reflexivity | unfold ndim, rank; cbn; lia].
  - refine (proj2 (proj2 (proj2 (proj2
              (posterior_net_probe_slices unimplemented_net theta_4x2
                 (mkTensor [4; 2; 2] float32 "cpu" (zeros [4; 2; 2]))))))
              (mkExc NotImplementedError "" None) _ _);
      reflexivity.
Defined.
